(** * Insurance fraud detection: the encoder, the classifier wrapper and the
      serving endpoint, embedded from [src/model.py] and [api/main.py].

    Numbers are IEEE binary64 values (Rocq's primitive [float], the type of a
    Python float and of a NumPy float64); a missing numeric cell is NaN, as in
    pandas.  Python ints are [Z].  A pandas frame is an ordered list of named
    columns; frames live in a store and are passed by reference.  The
    scikit-learn estimators the code calls are modelled by their documented
    behaviour in [Module Sklearn]. *)

From Stdlib Require Import Floats ZArith List Ascii String Bool Lia.
From stdpp Require Import base option list gmap strings.

#[local] Set Warnings "-inexact-float".
#[local] Open Scope string_scope.

(* ===================================================================== *)
(** ** Exceptions and results *)
(* ===================================================================== *)

(** The exceptions the modelled calls can raise; messages are not modelled. *)
Inductive exn : Type :=
| ValueError
| IndexError
| KeyError
| NotFittedError
| AttributeError
| OverflowError
| FileNotFoundError.

Inductive result (A : Type) : Type :=
| Ok (a : A)
| Raise (e : exn).
Arguments Ok {A} a.
Arguments Raise {A} e.

Definition rbind {A B} (r : result A) (k : A -> result B) : result B :=
  match r with
  | Ok a => k a
  | Raise e => Raise e
  end.

Definition of_option {A} (e : exn) (o : option A) : result A :=
  match o with
  | Some a => Ok a
  | None => Raise e
  end.

Fixpoint rmap {A B} (f : A -> result B) (l : list A) : result (list B) :=
  match l with
  | [] => Ok []
  | x :: l' =>
      rbind (f x) (fun y => rbind (rmap f l') (fun ys => Ok (y :: ys)))
  end.

(* ===================================================================== *)
(** ** binary64 helpers *)
(* ===================================================================== *)

Module F.

(** Conversion of a Python int to float64, correctly rounded; an int
    beyond the float64 range gives an infinity here, and [int_converts]
    tells where Python's [float(z)] raises [OverflowError] instead. *)
Definition of_Z (z : Z) : float :=
  SF2Prim (binary_normalize prec emax z 0 false).

Definition int_converts (z : Z) : bool := negb (PrimFloat.is_infinity (of_Z z)).

(** The cast of a float64 to float32 ([astype(np.float32)]), with the
    result written as the float64 of the same value: round to nearest
    even on 24 bits, an infinity beyond the float32 range. *)
Definition to_float32 (x : float) : float :=
  match Prim2SF x with
  | S754_finite s m e =>
      SF2Prim (binary_normalize 24 128 (if s then Z.neg m else Z.pos m) e s)
  | _ => x
  end.

(** The magnitudes whose cast to float32 is infinite: the infinities and
    everything from the midpoint between the largest float32 and 2^128
    on.  NaN is not among them. *)
Definition too_large32 (x : float) : bool :=
  (0x1.ffffffp127 <=? PrimFloat.abs x)%float.

Definition of_nat (n : nat) : float := of_Z (Z.of_nat n).

Definition is_missing (x : float) : bool := PrimFloat.is_nan x.

(** Left-to-right sum, the order of a column reduction. *)
Definition sum (xs : list float) : float :=
  fold_left PrimFloat.add xs 0%float.

(** [nansum], [nanmean]: missing values are skipped. *)
Definition present (xs : list float) : list float :=
  List.filter (fun x => negb (is_missing x)) xs.

Definition nansum (xs : list float) : float := sum (present xs).

Definition nanmean (xs : list float) : float :=
  (nansum xs / of_nat (length (present xs)))%float.

Definition eps : float := 0x1p-52%float.

End F.

Arguments F.of_Z : simpl never.

(* ===================================================================== *)
(** ** pandas frames *)
(* ===================================================================== *)

Module Pandas.

(** A column is numeric (float64, NaN for a missing value) or of object
    dtype (Python strings, [None] for a missing value). *)
Inductive column : Type :=
| NumCol (xs : list float)
| ObjCol (xs : list (option string)).

(** A frame: its columns in order, each under its label.  Labels are
    looked up by first match; a table read from a file has them distinct. *)
Definition DataFrame : Type := list (string * column).

(** [X.columns.tolist()] *)
Definition columns (df : DataFrame) : list string := List.map fst df.

Definition is_object (c : column) : bool :=
  match c with
  | ObjCol _ => true
  | NumCol _ => false
  end.

(** [X.select_dtypes(include=['object']).columns] *)
Definition select_dtypes_object (df : DataFrame) : list string :=
  List.map fst (List.filter (fun nc => is_object (snd nc)) df).

(** [X[col]] *)
Fixpoint getcol (df : DataFrame) (col : string) : option column :=
  match df with
  | [] => None
  | (n, c) :: df' => if String.eqb n col then Some c else getcol df' col
  end.

(** [X[col] = v]: overwrites the column in place, keeping its position;
    a label that is not there yet is appended. *)
Fixpoint setcol (df : DataFrame) (col : string) (v : column) : DataFrame :=
  match df with
  | [] => [(col, v)]
  | (n, c) :: df' =>
      if String.eqb n col then (n, v) :: df'
      else (n, c) :: setcol df' col v
  end.

(** [.astype(str)] on the cells of an object column. *)
Definition astype_str (cells : list (option string)) : list string :=
  List.map (fun c => match c with Some s => s | None => "nan" end) cells.

(** [X.mean(numeric_only=True)] for one column, and [fillna] with it:
    object columns have no mean and are left as they are. *)
Definition fill (v : float) (xs : list float) : list float :=
  List.map (fun x => if F.is_missing x then v else x) xs.

Definition fillna_col (c : column) : column :=
  match c with
  | NumCol xs => NumCol (fill (F.nanmean xs) xs)
  | ObjCol _ => c
  end.

(** [X.fillna(X.mean(numeric_only=True))]: a new frame. *)
Definition fillna_mean (df : DataFrame) : DataFrame :=
  List.map (fun nc => (fst nc, fillna_col (snd nc))) df.

Definition col_length (c : column) : nat :=
  match c with
  | NumCol xs => length xs
  | ObjCol xs => length xs
  end.

Definition n_rows (df : DataFrame) : nat :=
  match df with
  | [] => 0
  | (_, c) :: _ => col_length c
  end.

End Pandas.

(* ===================================================================== *)
(** ** The scikit-learn estimators used by the code *)
(* ===================================================================== *)

Module Sklearn.

(** *** DecisionTreeClassifier *)

(** A fitted tree: a leaf holds the weighted class counts of the training
    samples that reached it; an inner node tests one feature against a
    threshold and sends [x[feature] <= threshold] to the left, and a
    missing value (NaN) to the side recorded at fit time in
    [missing_go_to_left]. *)
Inductive tree : Type :=
| Leaf (value : list float)
| Node (feature : nat) (threshold : float) (missing_go_to_left : bool)
       (left right : tree).

Record DecisionTreeClassifier : Type := {
  n_features_in_ : nat;
  classes_ : list Z;
  tree_ : tree
}.

Fixpoint apply_tree (t : tree) (x : list float) : list float :=
  match t with
  | Leaf v => v
  | Node f th missing_left l r =>
      let v := List.nth f x nan in
      if PrimFloat.is_nan v then
        if missing_left then apply_tree l x else apply_tree r x
      else if (v <=? th)%float then apply_tree l x
      else apply_tree r x
  end.

(** Input validation of [predict] and [predict_proba]: the array is cast
    to float32, must then hold no infinity (an entry too large for
    float32 is refused like an infinite one; NaN is let through, the tree
    routes it) and must have the number of features seen in [fit].  The
    descent runs on the cast values. *)
Definition check_row (clf : DecisionTreeClassifier) (x : list float)
  : result (list float) :=
  if existsb F.too_large32 x then Raise ValueError
  else if negb (Nat.eqb (length x) (n_features_in_ clf)) then Raise ValueError
  else Ok (List.map F.to_float32 x).

Definition check_X (clf : DecisionTreeClassifier) (X : list (list float))
  : result (list (list float)) :=
  match X with
  | [] => Raise ValueError
  | _ => rmap (check_row clf) X
  end.

(** Index of the first maximum, NumPy's [argmax]. *)
Fixpoint argmax_from (best : float) (ibest i : nat) (xs : list float) : nat :=
  match xs with
  | [] => ibest
  | x :: xs' =>
      if (best <? x)%float then argmax_from x i (S i) xs'
      else argmax_from best ibest (S i) xs'
  end.

Definition argmax (xs : list float) : nat :=
  match xs with
  | [] => 0
  | x :: xs' => argmax_from x 0 1 xs'
  end.

Definition proba_of_value (v : list float) : list float :=
  let s := F.sum v in
  let normalizer := if (s =? 0)%float then 1%float else s in
  List.map (fun c => (c / normalizer)%float) v.

Definition predict_row (clf : DecisionTreeClassifier) (x : list float)
  : result Z :=
  of_option IndexError
    (List.nth_error (classes_ clf) (argmax (apply_tree (tree_ clf) x))).

Definition predict (clf : DecisionTreeClassifier) (X : list (list float))
  : result (list Z) :=
  rbind (check_X clf X) (rmap (predict_row clf)).

Definition predict_proba (clf : DecisionTreeClassifier)
    (X : list (list float)) : result (list (list float)) :=
  rbind (check_X clf X)
    (fun X' =>
       Ok (List.map (fun x => proba_of_value (apply_tree (tree_ clf) x)) X')).

(** A classifier fitted on [k] features and two classes: every leaf
    holds two class weights. *)
Fixpoint leaves_have (k : nat) (t : tree) : bool :=
  match t with
  | Leaf v => Nat.eqb (length v) k
  | Node _ _ _ l r => leaves_have k l && leaves_have k r
  end.

Definition binary_on (k : nat) (clf : DecisionTreeClassifier) : bool :=
  Nat.eqb (n_features_in_ clf) k
  && Nat.eqb (length (classes_ clf)) 2
  && leaves_have 2 (tree_ clf).

(** *** LabelEncoder *)

Record LabelEncoder : Type := { le_classes_ : list string }.

Fixpoint insert_sorted (s : string) (l : list string) : list string :=
  match l with
  | [] => [s]
  | t :: l' =>
      if String.eqb s t then l
      else if String.leb s t then s :: l
      else t :: insert_sorted s l'
  end.

(** [np.unique]: the distinct labels in increasing order. *)
Definition unique (ys : list string) : list string :=
  List.fold_right insert_sorted [] ys.

Fixpoint index_of (y : string) (classes : list string) : option nat :=
  match classes with
  | [] => None
  | c :: classes' =>
      if String.eqb c y then Some 0
      else option_map S (index_of y classes')
  end.

Definition le_fit (ys : list string) : LabelEncoder :=
  {| le_classes_ := unique ys |}.

(** [transform]: the code of each label; a label not seen in [fit]
    raises. *)
Definition le_transform (le : LabelEncoder) (ys : list string)
  : result (list float) :=
  rmap (fun y => of_option ValueError
                   (option_map F.of_nat (index_of y (le_classes_ le)))) ys.

(** *** StandardScaler *)

Record scaler_params : Type := {
  feature_names_in_ : list string;
  mean_ : list float;
  scale_ : list float
}.

(** The states of a scaler object: as constructed; fitted; and left
    behind by a [fit] that raised in input validation.  Such a [fit] has
    dropped the statistics of any earlier fit and recorded the column
    names of the table it was given before it raised; the feature count
    of an earlier successful fit, if there was one, is still there. *)
Inductive StandardScaler : Type :=
| Unfitted
| Fitted (ps : scaler_params)
| FitFailed (names : list string) (n_features : option nat).

Definition n_features_of (sc : StandardScaler) : option nat :=
  match sc with
  | Unfitted => None
  | Fitted ps => Some (length (mean_ ps))
  | FitFailed _ n => n
  end.

(** What [fit] has done to the scaler by the time its validation of the
    table runs. *)
Definition fit_started (sc : StandardScaler) (names : list string)
  : StandardScaler :=
  FitFailed names (n_features_of sc).

Definition fit_column (xs : list float) : float * float :=
  let vals := F.present xs in
  let n := F.of_nat (length vals) in
  let mean := (F.sum vals / n)%float in
  let dev := List.map (fun x => (x - mean)%float) vals in
  let correction := F.sum dev in
  let unnormalized :=
    (F.sum (List.map (fun d => d * d) dev) - correction * correction / n)%float in
  let var := (unnormalized / n)%float in
  let upper_bound :=
    (n * F.eps * var + (n * mean * F.eps) * (n * mean * F.eps))%float in
  let scale := if (var <=? upper_bound)%float then 1%float else sqrt var in
  (mean, scale).

Definition scale_column (ms : float * float) (xs : list float) : list float :=
  List.map (fun x => ((x - fst ms) / snd ms)%float) xs.

(** Row [i] of a table given by its columns. *)
Definition rows_of (n : nat) (cols : list (list float)) : list (list float) :=
  List.map (fun i => List.map (fun col => List.nth i col nan) cols) (seq 0 n).

Section Scaler.

(** Python's [float(s)] on a string, [None] where it raises. *)
Variable py_float : string -> option float.

Definition cell_to_float (c : option string) : result float :=
  match c with
  | None => Ok nan
  | Some s => of_option ValueError (py_float s)
  end.

Definition column_to_floats (c : Pandas.column) : result (list float) :=
  match c with
  | Pandas.NumCol xs => Ok xs
  | Pandas.ObjCol cells => rmap cell_to_float cells
  end.

(** [fit] and [transform] validate their input: every cell converts to a
    float, the table has a row and a column, and no entry is infinite (NaN
    is let through). *)
Definition check_array (df : Pandas.DataFrame) : result (list (list float)) :=
  rbind (rmap (fun nc => column_to_floats (snd nc)) df) (fun cols =>
  if Nat.eqb (length cols) 0 then Raise ValueError
  else if Nat.eqb (Pandas.n_rows df) 0 then Raise ValueError
  else if existsb (existsb PrimFloat.is_infinity) cols then Raise ValueError
  else Ok cols).

Definition scaler_fit (df : Pandas.DataFrame) : result scaler_params :=
  rbind (check_array df) (fun cols =>
  let ms := List.map fit_column cols in
  Ok {| feature_names_in_ := Pandas.columns df;
        mean_ := List.map fst ms;
        scale_ := List.map snd ms |}).

Definition scaler_transform (sc : StandardScaler) (df : Pandas.DataFrame)
  : result (list (list float)) :=
  match sc with
  | Unfitted => Raise NotFittedError
  | Fitted ps =>
      if negb (bool_decide (Pandas.columns df = feature_names_in_ ps))
      then Raise ValueError
      else
        rbind (check_array df) (fun cols =>
        Ok (rows_of (Pandas.n_rows df)
              (List.map (fun mc => scale_column (fst mc) (snd mc))
                 (List.combine (List.combine (mean_ ps) (scale_ ps)) cols))))
  | FitFailed names n =>
      (* the object passes for fitted; the statistics are missing *)
      if negb (bool_decide (Pandas.columns df = names))
      then Raise ValueError
      else
        rbind (check_array df) (fun cols =>
        match n with
        | Some k =>
            if Nat.eqb (length cols) k then Raise AttributeError
            else Raise ValueError
        | None => Raise AttributeError
        end)
  end.

End Scaler.

End Sklearn.

(** What a model file holds: the object handed to [joblib.dump], which
    [pickle.load] gives back.  [None] is a pickled [None].  A key is a
    file, named by its resolved path: two spellings of one path are one
    key, and the directory of a path that is written is taken to exist. *)
Abbreviation disk := (gmap string (option Sklearn.DecisionTreeClassifier)).

(* ===================================================================== *)
(** ** src/model.py: the encoder and the classifier wrapper *)
(* ===================================================================== *)

Module Model.

Import Pandas Sklearn.

Record FraudDetectionModel : Type := {
  random_state : Z;
  model : option DecisionTreeClassifier;
  scaler : StandardScaler;
  label_encoders : gmap string LabelEncoder;
  feature_columns : option (list string)
}.

(** [__init__] *)
Definition init (random_state : Z) : FraudDetectionModel :=
  {| random_state := random_state;
     model := None;
     scaler := Unfitted;
     label_encoders := ∅;
     feature_columns := None |}.

(** Frames are Python objects: a variable holds a reference into the
    store, and [X[col] = v] writes through it. *)
Abbreviation loc := nat.

Record world : Type := {
  self : FraudDetectionModel;
  frames : list DataFrame;
  files : disk
}.

Definition set_self (w : world) (s : FraudDetectionModel) : world :=
  {| self := s; frames := frames w; files := files w |}.

Definition set_frames (w : world) (fs : list DataFrame) : world :=
  {| self := self w; frames := fs; files := files w |}.

Definition set_files (w : world) (d : disk) : world :=
  {| self := self w; frames := frames w; files := d |}.

(** Computations over the world that may raise; what was written before
    an exception stays written. *)
Definition M (A : Type) : Type := world -> result A * world.

Definition ret {A} (a : A) : M A := fun w => (Ok a, w).

Definition raise {A} (e : exn) : M A := fun w => (Raise e, w).

Definition bind {A B} (c : M A) (k : A -> M B) : M B :=
  fun w =>
    match c w with
    | (Ok a, w') => k a w'
    | (Raise e, w') => (Raise e, w')
    end.

Notation "x <- c ;; k" := (bind c (fun x => k))
  (at level 100, c at next level, right associativity).
Notation "c ;;; k" := (bind c (fun _ => k))
  (at level 100, right associativity).

Definition lift {A} (r : result A) : M A := fun w => (r, w).

Fixpoint for_each {A} (l : list A) (body : A -> M unit) : M unit :=
  match l with
  | [] => ret tt
  | x :: l' => body x ;;; for_each l' body
  end.

Definition get_self : M FraudDetectionModel := fun w => (Ok (self w), w).

Definition put_self (s : FraudDetectionModel) : M unit :=
  fun w => (Ok tt, set_self w s).

(** Reading the frame a reference points to. *)
Definition df_read (X : loc) : M DataFrame :=
  fun w => (of_option KeyError (frames w !! X), w).

(** A new frame object; the reference to it is returned. *)
Definition df_new (df : DataFrame) : M loc :=
  fun w => (Ok (length (frames w)), set_frames w (frames w ++ [df])).

(** [X.copy()] *)
Definition df_copy (X : loc) : M loc :=
  df <- df_read X ;; df_new df.

(** [X[col] = v] *)
Definition df_setitem (X : loc) (col : string) (v : column) : M unit :=
  df <- df_read X ;;
  fun w => (Ok tt, set_frames w (<[X := setcol df col v]> (frames w))).

(** [X[col].astype(str)].  The loop asks for the columns [select_dtypes]
    listed, which are of object dtype when their turn comes; the other two
    branches stand for a label listed twice. *)
Definition df_astype_str (X : loc) (col : string) : M (list string) :=
  df <- df_read X ;;
  match getcol df col with
  | Some (ObjCol cells) => ret (astype_str cells)
  | Some (NumCol _) => raise ValueError
  | None => raise KeyError
  end.

(** [self.label_encoders[col] = le] *)
Definition set_label_encoder (col : string) (le : LabelEncoder) : M unit :=
  s <- get_self ;;
  put_self {| random_state := random_state s;
              model := model s;
              scaler := scaler s;
              label_encoders := <[col := le]> (label_encoders s);
              feature_columns := feature_columns s |}.

(** [self.feature_columns = cols] *)
Definition set_feature_columns (cols : list string) : M unit :=
  s <- get_self ;;
  put_self {| random_state := random_state s;
              model := model s;
              scaler := scaler s;
              label_encoders := label_encoders s;
              feature_columns := Some cols |}.

(** The state of [self.scaler], which [fit] changes in two steps: on
    entry, and once the statistics are computed. *)
Definition set_scaler (sc : StandardScaler) : M unit :=
  s <- get_self ;;
  put_self {| random_state := random_state s;
              model := model s;
              scaler := sc;
              label_encoders := label_encoders s;
              feature_columns := feature_columns s |}.

Section Encoder.

Variable py_float : string -> option float.

(** The body of the loop over the categorical columns. *)
Definition encode_column (X : loc) (fit : bool) (col : string) : M unit :=
  if fit then
    vals <- df_astype_str X col ;;
    let le := le_fit vals in
    codes <- lift (le_transform le vals) ;;
    df_setitem X col (NumCol codes) ;;;
    set_label_encoder col le
  else
    s <- get_self ;;
    match label_encoders s !! col with
    | Some le =>
        vals <- df_astype_str X col ;;
        codes <- lift (le_transform le vals) ;;
        df_setitem X col (NumCol codes)
    | None => ret tt
    end.

(** [preprocess_data(self, X, y=None, fit=False)]; [y] is not used by
    the body. *)
Definition preprocess_data (X : loc) (fit : bool)
  : M (list (list float) * list string) :=
  X <- df_copy X ;;
  df <- df_read X ;;
  let categorical_cols := select_dtypes_object df in
  for_each categorical_cols (encode_column X fit) ;;;
  df <- df_read X ;;
  X <- df_new (fillna_mean df) ;;
  df <- df_read X ;;
  if fit then
    set_feature_columns (columns df) ;;;
    s <- get_self ;;
    set_scaler (fit_started (scaler s) (columns df)) ;;;
    ps <- lift (scaler_fit py_float df) ;;
    set_scaler (Fitted ps) ;;;
    X_scaled <- lift (scaler_transform py_float (Fitted ps) df) ;;
    ret (X_scaled, columns df)
  else
    s <- get_self ;;
    X_scaled <- lift (scaler_transform py_float (scaler s) df) ;;
    ret (X_scaled, columns df).

(** What the loop with [fit=False] leaves in the copied frame, read
    as a function of the label encoders and the frame. *)
Definition encode_step (les : gmap string LabelEncoder) (df : DataFrame)
    (col : string) : result DataFrame :=
  match les !! col with
  | Some le =>
      match getcol df col with
      | Some (ObjCol cells) =>
          rbind (le_transform le (astype_str cells))
            (fun codes => Ok (setcol df col (NumCol codes)))
      | Some (NumCol _) => Raise ValueError
      | None => Raise KeyError
      end
  | None => Ok df
  end.

Fixpoint encode_loop (les : gmap string LabelEncoder) (cols : list string)
    (df : DataFrame) : result DataFrame :=
  match cols with
  | [] => Ok df
  | col :: cols' => rbind (encode_step les df col) (encode_loop les cols')
  end.

(** The frame handed to the scaler, and what comes back. *)
Definition scaled (sc : StandardScaler) (df : DataFrame)
  : result (list (list float) * list string) :=
  rbind (scaler_transform py_float sc df)
    (fun X_scaled => Ok (X_scaled, columns df)).

Definition encoded (s : FraudDetectionModel) (df : DataFrame)
  : result (list (list float) * list string) :=
  rbind (encode_loop (label_encoders s) (select_dtypes_object df) df)
    (fun df1 => scaled (scaler s) (fillna_mean df1)).

(** The imputation as the specification words it, for comparison with
    [fillna_mean]: each missing value of a numeric column is replaced by
    the mean kept from fit time, given column by column. *)
Definition spec_fillna_frozen (means : list float) (df : DataFrame)
  : DataFrame :=
  List.map
    (fun mc =>
       (fst (snd mc),
        match snd (snd mc) with
        | NumCol xs => NumCol (fill (fst mc) xs)
        | ObjCol cells => ObjCol cells
        end))
    (List.combine means df).

(** [predict(self, X)] *)
Definition predict (X : loc) : M (list Z * list (list float)) :=
  r <- preprocess_data X false ;;
  let X_scaled := fst r in
  s <- get_self ;;
  match model s with
  | None => raise AttributeError
  | Some clf =>
      predictions <- lift (Sklearn.predict clf X_scaled) ;;
      probabilities <- lift (Sklearn.predict_proba clf X_scaled) ;;
      ret (predictions, probabilities)
  end.

End Encoder.

(** [save_model(self, path)]: [joblib.dump(self.model, path)] *)
Definition save_model (path : string) : M unit :=
  s <- get_self ;;
  fun w => (Ok tt, set_files w (<[path := model s]> (files w))).

(** [load_model(path)]: [joblib.load(path)] *)
Definition load_model (path : string) : M (option DecisionTreeClassifier) :=
  fun w => (of_option FileNotFoundError (files w !! path), w).

(** *** The call with [fit=True], read as a function *)

Section Fitting.

Variable py_float : string -> option float.

(** One turn of the loop with [fit=True]: the label encoder fitted on the
    column is registered and the column is replaced by its codes. *)
Definition fit_step (les : gmap string LabelEncoder) (df : DataFrame)
    (col : string) : result (gmap string LabelEncoder * DataFrame) :=
  match getcol df col with
  | Some (ObjCol cells) =>
      let vals := astype_str cells in
      let le := le_fit vals in
      rbind (le_transform le vals)
        (fun codes => Ok (<[col := le]> les, setcol df col (NumCol codes)))
  | Some (NumCol _) => Raise ValueError
  | None => Raise KeyError
  end.

Fixpoint fit_loop (les : gmap string LabelEncoder) (cols : list string)
    (df : DataFrame) : result (gmap string LabelEncoder * DataFrame) :=
  match cols with
  | [] => Ok (les, df)
  | col :: cols' =>
      rbind (fit_step les df col)
        (fun acc => fit_loop (fst acc) cols' (snd acc))
  end.

(** What the scaler makes of the frame it is fitted on. *)
Definition fit_scaled (df : DataFrame)
  : result (list (list float) * list string) :=
  rbind (scaler_fit py_float df) (fun ps => scaled py_float (Fitted ps) df).

Definition fitted (s : FraudDetectionModel) (df : DataFrame)
  : result (list (list float) * list string) :=
  rbind (fit_loop (label_encoders s) (select_dtypes_object df) df)
    (fun acc => fit_scaled (fillna_mean (snd acc))).

End Fitting.

(** What [predict] makes of an encoding. *)
Definition classify (s : FraudDetectionModel)
    (r : list (list float) * list string)
  : result (list Z * list (list float)) :=
  match model s with
  | None => Raise AttributeError
  | Some clf =>
      rbind (Sklearn.predict clf (fst r)) (fun predictions =>
      rbind (Sklearn.predict_proba clf (fst r)) (fun probabilities =>
      Ok (predictions, probabilities)))
  end.

(** Two frames with the same labels in the same order and columns of the
    same length. *)
Definition same_shape (df df' : DataFrame) : Prop :=
  Forall2 (fun a b => fst a = fst b /\ col_length (snd a) = col_length (snd b))
    df df'.

(** *** Store invariants *)

(** [w'] keeps every frame that sat below [n] in [w]. *)
Definition keeps (n : nat) (w w' : world) : Prop :=
  length (frames w) <= length (frames w') /\
  forall l, l < n -> frames w' !! l = frames w !! l.

(** A computation that keeps the frames below [n] and whose value
    satisfies [Q]. *)
Definition safe {A} (n : nat) (c : M A) (Q : A -> Prop) : Prop :=
  forall w, n <= length (frames w) ->
    keeps n w (snd (c w)) /\ forall a, fst (c w) = Ok a -> Q a.

End Model.

(* ===================================================================== *)
(** ** api/main.py: the serving endpoint *)
(* ===================================================================== *)

Module Api.

(** The request schema: pydantic checks the field types and nothing else. *)
Record ClaimData : Type := {
  claim_amount : float;
  claim_age : Z;
  claim_type : string;
  claimant_age : Z;
  policy_duration : float;
  monthly_premium : float;
  witnesses : Z;
  police_report : Z;
  injury_claim : Z;
  property_claim : Z;
  vehicle_claim : Z
}.

(** The text of [message] is an f-string around one number printed with
    one decimal; the model keeps the branch and the number. *)
Inductive Message : Type :=
| FraudAlert (confidence : float)
| Legitimate (confidence : float).

Record PredictionResponse : Type := {
  fraud_detected : bool;
  fraud_probability : float;
  risk_level : string;
  message : Message
}.

Inductive Detail : Type :=
| ModelNotLoaded
| PredictionError (e : exn).

(** What the handler hands back to FastAPI. *)
Inductive response : Type :=
| Return (r : PredictionResponse)
| HTTPException (status_code : Z) (detail : Detail).

(** [str.lower] on the ASCII range; other bytes are left alone.  Python
    also folds letters outside ASCII, but none of them folds into a letter
    of "auto", "home" or "health", so the three comparisons below come out
    the same. *)
Definition lower_ascii (c : ascii) : ascii :=
  let n := nat_of_ascii c in
  if Nat.leb 65 n && Nat.leb n 90 then ascii_of_nat (n + 32) else c.

Fixpoint lower (s : string) : string :=
  match s with
  | EmptyString => EmptyString
  | String c s' => String (lower_ascii c) (lower s')
  end.




Definition model_path : string := "../models/fraud_detection_model.pkl".

(** [load_model]: the new value of the global [model], or the exception
    that is logged and raised again. *)
Definition load_model (fs : disk)
  : result (option Sklearn.DecisionTreeClassifier) :=
  of_option FileNotFoundError (fs !! model_path).

(** [health_check]: the dict it returns. *)
Record HealthStatus : Type := {
  status : string;
  model_loaded : bool;
  service : string
}.

Definition health_check (model : option Sklearn.DecisionTreeClassifier)
  : HealthStatus :=
  {| status := "operational";
     model_loaded := match model with Some _ => true | None => false end;
     service := "Insurance Fraud Detection API" |}.

Definition flag (b : bool) : float := if b then F.of_Z 1 else F.of_Z 0.

(** The Python ints among the entries of the feature array (the three
    flags, 0 or 1, apart). *)
Definition int_fields (claim : ClaimData) : list Z :=
  [ claim_age claim; claimant_age claim; witnesses claim;
    police_report claim; injury_claim claim; property_claim claim;
    vehicle_claim claim ].

(** An int of the array is made a float when the array is built or, where
    it is beyond 64 bits and [np.array] keeps it as an object, when the
    classifier converts its input; an int beyond the float64 range makes
    that conversion raise. *)
Definition convert_ints (claim : ClaimData) : result unit :=
  if forallb F.int_converts (int_fields claim) then Ok tt
  else Raise OverflowError.

(** The feature array built by [predict_fraud]: one row of thirteen
    entries, given by the float64 values of its entries. *)
Definition feature_row (claim : ClaimData) : list float :=
  [ claim_amount claim;
    F.of_Z (claim_age claim);
    F.of_Z (claimant_age claim);
    policy_duration claim;
    monthly_premium claim;
    F.of_Z (witnesses claim);
    F.of_Z (police_report claim);
    F.of_Z (injury_claim claim);
    F.of_Z (property_claim claim);
    F.of_Z (vehicle_claim claim);
    flag (String.eqb (lower (claim_type claim)) "auto");
    flag (String.eqb (lower (claim_type claim)) "home");
    flag (String.eqb (lower (claim_type claim)) "health") ].

Definition features (claim : ClaimData) : list (list float) :=
  [feature_row claim].

Definition risk_level_of (probability : float) : string :=
  if (probability <? 0.3)%float then "Low"
  else if (probability <? 0.7)%float then "Medium"
  else "High".

Section Serving.

(** Python's [round(x, 4)]. *)
Variable round4 : float -> float.

(** The body of the [try] block. *)
Definition predict_body (model : Sklearn.DecisionTreeClassifier)
    (claim : ClaimData) : result PredictionResponse :=
  let features := features claim in
  rbind (convert_ints claim) (fun _ =>
  rbind (Sklearn.predict model features) (fun preds =>
  rbind (of_option IndexError (List.nth_error preds 0)) (fun prediction =>
  rbind (Sklearn.predict_proba model features) (fun probas =>
  rbind (of_option IndexError (List.nth_error probas 0)) (fun row =>
  rbind (of_option IndexError (List.nth_error row 1)) (fun probability =>
  let risk_level := risk_level_of probability in
  let fraud_detected := Z.eqb prediction 1 in
  let message :=
    if fraud_detected then FraudAlert (probability * 100)%float
    else Legitimate ((1 - probability) * 100)%float in
  Ok {| fraud_detected := fraud_detected;
        fraud_probability := round4 probability;
        risk_level := risk_level;
        message := message |})))))).

Definition predict_fraud (model : option Sklearn.DecisionTreeClassifier)
    (claim : ClaimData) : response :=
  match model with
  | None => HTTPException 500 ModelNotLoaded
  | Some clf =>
      match predict_body clf claim with
      | Ok r => Return r
      | Raise e => HTTPException 400 (PredictionError e)
      end
  end.

(** The response for a class and a probability. *)
Definition verdict (prediction : Z) (probability : float)
  : PredictionResponse :=
  {| fraud_detected := Z.eqb prediction 1;
     fraud_probability := round4 probability;
     risk_level := risk_level_of probability;
     message :=
       if Z.eqb prediction 1 then FraudAlert (probability * 100)%float
       else Legitimate ((1 - probability) * 100)%float |}.

(** The answer of the handler as a function of what happens inside
    the [try] block: whether the ints convert, and what the two calls of
    the classifier give. *)
Definition answer (converted : result unit) (preds : result (list Z))
    (probas : result (list (list float))) : response :=
  match converted, preds, probas with
  | Raise e, _, _ => HTTPException 400 (PredictionError e)
  | Ok _, Raise e, _ => HTTPException 400 (PredictionError e)
  | Ok _, Ok preds, probas =>
      match List.nth_error preds 0, probas with
      | None, _ => HTTPException 400 (PredictionError IndexError)
      | Some _, Raise e => HTTPException 400 (PredictionError e)
      | Some prediction, Ok probas =>
          match List.nth_error probas 0 with
          | None => HTTPException 400 (PredictionError IndexError)
          | Some row =>
              match List.nth_error row 1 with
              | None => HTTPException 400 (PredictionError IndexError)
              | Some probability => Return (verdict prediction probability)
              end
          end
      end
  end.

End Serving.

End Api.

(* ===================================================================== *)
(** ** app.py: the form in front of the endpoint *)
(* ===================================================================== *)

Module App.

(** What the widgets of the single-claim tab hold when the button is
    pressed.  The number inputs declared with int bounds give ints, the one
    with float bounds a float; the select boxes give one of their options
    and the check boxes a bool. *)
Record Form : Type := {
  claim_amount : Z;
  claim_age : Z;
  claim_type : string;
  claimant_age : Z;
  policy_duration : float;
  monthly_premium : Z;
  witnesses : Z;
  police_report : string;
  injury_claim : bool;
  property_claim : bool;
  vehicle_claim : bool
}.

(** The bounds and options declared on the widgets. *)
Definition widgets_ok (f : Form) : Prop :=
  (0 <= claim_amount f <= 1000000)%Z /\
  (0 <= claim_age f <= 365)%Z /\
  In (claim_type f) ["auto"; "home"; "health"; "other"] /\
  (18 <= claimant_age f <= 100)%Z /\
  (0.1 <=? policy_duration f)%float = true /\
  (policy_duration f <=? 50)%float = true /\
  (0 <= monthly_premium f <= 10000)%Z /\
  (0 <= witnesses f <= 10)%Z /\
  In (police_report f) ["No"; "Yes"].

Definition int_of_bool (b : bool) : Z := if b then 1%Z else 0%Z.

(** [p] on [z], [z + 1], ... for [n] values. *)
Fixpoint all_from (p : Z -> bool) (z : Z) (n : nat) : bool :=
  match n with
  | O => true
  | S n' => p z && all_from p (z + 1) n'
  end.

(** The payload posted to [/predict], as the endpoint's schema reads it. *)
Definition payload (f : Form) : Api.ClaimData :=
  {| Api.claim_amount := F.of_Z (claim_amount f);
     Api.claim_age := claim_age f;
     Api.claim_type := claim_type f;
     Api.claimant_age := claimant_age f;
     Api.policy_duration := policy_duration f;
     Api.monthly_premium := F.of_Z (monthly_premium f);
     Api.witnesses := witnesses f;
     Api.police_report :=
       int_of_bool (String.eqb (police_report f) "Yes");
     Api.injury_claim := int_of_bool (injury_claim f);
     Api.property_claim := int_of_bool (property_claim f);
     Api.vehicle_claim := int_of_bool (vehicle_claim f) |}.

End App.

(* ===================================================================== *)
(** ** Sample data *)
(* ===================================================================== *)

Module Samples.

Import Sklearn Api.

(** A two-leaf tree over the thirteen serving features, splitting on the
    claim amount. *)
Definition stump : DecisionTreeClassifier :=
  {| n_features_in_ := 13;
     classes_ := [0%Z; 1%Z];
     tree_ := Node 0 10000 false (Leaf [7; 3]%float) (Leaf [3; 7]%float) |}.

Definition claim_auto : ClaimData :=
  {| claim_amount := 5000; claim_age := 30; claim_type := "auto";
     claimant_age := 45; policy_duration := 5; monthly_premium := 100;
     witnesses := 1; police_report := 1; injury_claim := 0;
     property_claim := 1; vehicle_claim := 1 |}.

Definition claim_large : ClaimData :=
  {| claim_amount := 50000; claim_age := 30; claim_type := "HOME";
     claimant_age := 45; policy_duration := 5; monthly_premium := 100;
     witnesses := 1; police_report := 1; injury_claim := 0;
     property_claim := 1; vehicle_claim := 1 |}.


Definition claim_out_of_range : ClaimData :=
  {| claim_amount := -5000; claim_age := 30; claim_type := "auto";
     claimant_age := 900; policy_duration := 5; monthly_premium := 100;
     witnesses := -3; police_report := 1; injury_claim := 0;
     property_claim := 1; vehicle_claim := 1 |}.

(** An amount beyond the float32 range, and an age beyond the float64
    range. *)
Definition claim_too_large : ClaimData :=
  {| claim_amount := 1e39; claim_age := 30; claim_type := "auto";
     claimant_age := 45; policy_duration := 5; monthly_premium := 100;
     witnesses := 1; police_report := 1; injury_claim := 0;
     property_claim := 1; vehicle_claim := 1 |}.

Definition claim_huge_age : ClaimData :=
  {| claim_amount := 5000; claim_age := 30; claim_type := "auto";
     claimant_age := 2 ^ 1100; policy_duration := 5; monthly_premium := 100;
     witnesses := 1; police_report := 1; injury_claim := 0;
     property_claim := 1; vehicle_claim := 1 |}.

Definition response_large : PredictionResponse :=
  {| fraud_detected := true;
     fraud_probability := 0.7;
     risk_level := "High";
     message := FraudAlert 70 |}.

Definition response_out_of_range : PredictionResponse :=
  {| fraud_detected := false;
     fraud_probability := 0.3;
     risk_level := "Medium";
     message := Legitimate 70 |}.

Import Pandas Model.

(** [float(s)] on the strings made of decimal digits, which is all the
    sample frames hold; any other string is taken to raise. *)
Fixpoint digits_value (acc : Z) (s : string) : option Z :=
  match s with
  | EmptyString => Some acc
  | String c s' =>
      let n := nat_of_ascii c in
      if Nat.leb 48 n && Nat.leb n 57
      then digits_value (10 * acc + Z.of_nat (n - 48)) s'
      else None
  end.

Definition float_of_digits (s : string) : option float :=
  match s with
  | EmptyString => None
  | _ => option_map F.of_Z (digits_value 0 s)
  end.

Definition world_of (s : FraudDetectionModel) (fs : list DataFrame) : world :=
  {| self := s; frames := fs; files := ∅ |}.

(** A training table with the columns of the request schema, the claim
    type held as text. *)
Definition raw_table : DataFrame :=
  [ ("claim_amount", NumCol [5000; 12000]%float);
    ("claim_age", NumCol [30; 2]%float);
    ("claim_type", ObjCol [Some "auto"; Some "home"]);
    ("claimant_age", NumCol [45; 23]%float);
    ("policy_duration", NumCol [5; 1]%float);
    ("monthly_premium", NumCol [100; 80]%float);
    ("witnesses", NumCol [1; 0]%float);
    ("police_report", NumCol [1; 0]%float);
    ("injury_claim", NumCol [0; 1]%float);
    ("property_claim", NumCol [1; 0]%float);
    ("vehicle_claim", NumCol [1; 0]%float) ].

(** A tree fitted on the eleven columns the encoder makes of
    [raw_table]. *)
Definition tree11 : DecisionTreeClassifier :=
  {| n_features_in_ := 11;
     classes_ := [0%Z; 1%Z];
     tree_ := Node 0 0 false (Leaf [1; 0]%float) (Leaf [0; 1]%float) |}.

(** One numeric column, fitted on [1; 3] and then asked to encode a
    table with a missing value. *)
Definition train_x : DataFrame := [("x", NumCol [1; 3]%float)].
Definition test_x : DataFrame := [("x", NumCol [10; nan; 20]%float)].


(** A trained wrapper: scaler fitted on one column with mean 110 and
    scale 10, and a tree splitting the scaled value at 1. *)
Definition tree1 : DecisionTreeClassifier :=
  {| n_features_in_ := 1;
     classes_ := [0%Z; 1%Z];
     tree_ := Node 0 1 false (Leaf [4; 0]%float) (Leaf [0; 4]%float) |}.

Definition trained : FraudDetectionModel :=
  {| random_state := 42;
     model := Some tree1;
     scaler := Fitted {| feature_names_in_ := ["x"];
                         mean_ := [110%float];
                         scale_ := [10%float] |};
     label_encoders := ∅;
     feature_columns := Some ["x"] |}.

(** The same tree in a wrapper whose scaler was fitted on other data. *)
Definition trained_elsewhere : FraudDetectionModel :=
  {| random_state := 42;
     model := Some tree1;
     scaler := Fitted {| feature_names_in_ := ["x"];
                         mean_ := [0%float];
                         scale_ := [1%float] |};
     label_encoders := ∅;
     feature_columns := Some ["x"] |}.

Definition new_x : DataFrame := [("x", NumCol [115%float])].

(** A table with its columns and no row. *)
Definition empty_table : DataFrame :=
  [("x", NumCol []); ("t", ObjCol [])].

(** A categorical column at fit time, and a label that was not in it. *)
Definition train_t : DataFrame := [("t", ObjCol [Some "a"; Some "b"])].
Definition test_t : DataFrame := [("t", ObjCol [Some "a"; Some "c"])].

(** A tree fitted on labels that were all 0. *)
Definition tree_one_class : DecisionTreeClassifier :=
  {| n_features_in_ := 13;
     classes_ := [0%Z];
     tree_ := Leaf [5%float] |}.

(** The form as the page first shows it. *)
Definition form_default : App.Form :=
  {| App.claim_amount := 5000; App.claim_age := 30;
     App.claim_type := "auto"; App.claimant_age := 45;
     App.policy_duration := 5; App.monthly_premium := 100;
     App.witnesses := 1; App.police_report := "No";
     App.injury_claim := false; App.property_claim := true;
     App.vehicle_claim := true |}.

(** The world after [preprocess_data(train, fit=True)] on a fresh
    wrapper, [rest] being the other frames in the store. *)
Definition fitted_on (train : DataFrame) (rest : list DataFrame) : world :=
  snd (preprocess_data float_of_digits 0 true
         (world_of (init 42) (train :: rest))).

End Samples.

(* ===================================================================== *)
(** ** Order of binary64 values *)
(* ===================================================================== *)

Section FloatOrder.

Ltac sf_signs :=
  repeat match goal with
         | s : bool |- _ => destruct s
         end;
  cbn [SFcompare SFltb SFleb CompOpp]; try congruence.

Lemma SFleb_not_ltb (a b : spec_float) :
  SFleb a b = true -> SFltb b a = false.
Proof.
  unfold SFleb, SFltb.
  destruct a as [sa|sa| |sa ma ea], b as [sb|sb| |sb mb eb]; sf_signs;
    change (Pos.compare_cont Eq ?x ?y) with (Pos.compare x y);
    destruct (Z.compare_spec ea eb), (Z.compare_spec eb ea);
    try lia; try congruence;
    destruct (Pos.compare_spec ma mb), (Pos.compare_spec mb ma);
    cbn [CompOpp]; try congruence; try lia.
Qed.

Lemma SFltb_trans (a b c : spec_float) :
  SFltb a b = true -> SFltb b c = true -> SFltb a c = true.
Proof.
  unfold SFltb.
  destruct a as [sa|sa| |sa ma ea], b as [sb|sb| |sb mb eb],
           c as [sc|sc| |sc mc ec]; sf_signs;
    change (Pos.compare_cont Eq ?x ?y) with (Pos.compare x y);
    destruct (Z.compare_spec ea eb), (Z.compare_spec eb ec),
             (Z.compare_spec ea ec);
    try lia; try congruence; subst;
    destruct (Pos.compare_spec ma mb), (Pos.compare_spec mb mc),
             (Pos.compare_spec ma mc);
    cbn [CompOpp]; try congruence; try lia.
Qed.

Lemma SFleb_trans (a b c : spec_float) :
  SFleb a b = true -> SFleb b c = true -> SFleb a c = true.
Proof.
  unfold SFleb.
  destruct a as [sa|sa| |sa ma ea], b as [sb|sb| |sb mb eb],
           c as [sc|sc| |sc mc ec]; sf_signs;
    change (Pos.compare_cont Eq ?x ?y) with (Pos.compare x y);
    destruct (Z.compare_spec ea eb), (Z.compare_spec eb ec),
             (Z.compare_spec ea ec);
    try lia; try congruence; subst;
    destruct (Pos.compare_spec ma mb), (Pos.compare_spec mb mc),
             (Pos.compare_spec ma mc);
    cbn [CompOpp]; try congruence; try lia.
Qed.

Lemma leb_not_ltb (a b : float) :
  (a <=? b)%float = true -> (b <? a)%float = false.
Proof. rewrite leb_spec, ltb_spec. apply SFleb_not_ltb. Qed.

Lemma ltb_trans (a b c : float) :
  (a <? b)%float = true -> (b <? c)%float = true -> (a <? c)%float = true.
Proof. rewrite !ltb_spec. apply SFltb_trans. Qed.

(** The cast to float32 on sample values: 0.1 is rounded on 24 bits; the
    double just below the midpoint between the largest float32 and 2^128
    goes to the largest float32; the midpoint itself and 1e39 go to
    infinity, and [F.too_large32] tells the two sides apart. *)
Example to_float32_samples :
  F.to_float32 0.1 = 0x1.99999ap-4%float /\
  F.to_float32 0x1.fffffefffffffp127 = 0x1.fffffep127%float /\
  F.too_large32 0x1.fffffefffffffp127 = false /\
  F.to_float32 0x1.ffffffp127 = infinity /\
  F.too_large32 0x1.ffffffp127 = true /\
  F.to_float32 1e39 = infinity /\
  F.too_large32 1e39 = true /\
  F.too_large32 nan = false.
Proof. repeat split; vm_compute; reflexivity. Qed.

End FloatOrder.

(* ===================================================================== *)
(** ** Properties of the serving endpoint *)
(* ===================================================================== *)

Section ApiProperties.

Import Sklearn Api.

Variable round4 : float -> float.

(** The three bands of [risk_level_of]. *)
Lemma risk_level_of_bands (p : float) :
  ((p <? 0.3)%float = true -> risk_level_of p = "Low") /\
  ((0.3 <=? p)%float = true -> (p <? 0.7)%float = true ->
     risk_level_of p = "Medium") /\
  ((0.7 <=? p)%float = true -> risk_level_of p = "High").
Proof.
  unfold risk_level_of. repeat split.
  - intros ->. reflexivity.
  - intros Hle Hlt. rewrite (leb_not_ltb _ _ Hle), Hlt. reflexivity.
  - intros Hle. rewrite (leb_not_ltb _ _ Hle).
    destruct (p <? 0.3)%float eqn:Hlow; [|reflexivity].
    assert (Hmid : (0.3 <? 0.7)%float = true) by (vm_compute; reflexivity).
    pose proof (ltb_trans p 0.3 0.7 Hlow Hmid) as Hc.
    rewrite (leb_not_ltb _ _ Hle) in Hc. discriminate.
Qed.

(** What a returned response was computed from. *)
Lemma predict_fraud_Return model claim r :
  predict_fraud round4 model claim = Return r ->
  exists clf preds prediction probas row probability,
    model = Some clf /\
    predict clf (features claim) = Ok preds /\
    List.nth_error preds 0 = Some prediction /\
    predict_proba clf (features claim) = Ok probas /\
    List.nth_error probas 0 = Some row /\
    List.nth_error row 1 = Some probability /\
    r = {| fraud_detected := Z.eqb prediction 1;
           fraud_probability := round4 probability;
           risk_level := risk_level_of probability;
           message :=
             if Z.eqb prediction 1
             then FraudAlert (probability * 100)%float
             else Legitimate ((1 - probability) * 100)%float |}.
Proof.
  unfold predict_fraud. destruct model as [clf|]; [|discriminate].
  unfold predict_body.
  destruct (convert_ints claim) as [[]|]; cbn [rbind]; [|discriminate].
  destruct (predict clf (features claim)) as [preds|] eqn:Hp;
    cbn [rbind]; [|discriminate].
  destruct (List.nth_error preds 0) as [prediction|] eqn:Hp0;
    cbn [rbind of_option]; [|discriminate].
  destruct (predict_proba clf (features claim)) as [probas|] eqn:Hq;
    cbn [rbind]; [|discriminate].
  destruct (List.nth_error probas 0) as [row|] eqn:Hq0;
    cbn [rbind of_option]; [|discriminate].
  destruct (List.nth_error row 1) as [probability|] eqn:Hq1;
    cbn [rbind of_option]; [|discriminate].
  intros [= <-].
  exists clf, preds, prediction, probas, row, probability.
  repeat split; assumption.
Qed.

(** C2: a returned response carries the band of the probability the
    classifier gave for the fraud class: Low below 0.30, Medium from 0.30
    up to but excluding 0.70, High from 0.70 on; a probability of exactly
    0.30 is Medium and one of exactly 0.70 is High. *)
Theorem risk_level_bands model claim r :
  predict_fraud round4 model claim = Return r ->
  exists clf probas row p,
    model = Some clf /\
    predict_proba clf (features claim) = Ok probas /\
    List.nth_error probas 0 = Some row /\
    List.nth_error row 1 = Some p /\
    ((p <? 0.3)%float = true -> risk_level r = "Low") /\
    ((0.3 <=? p)%float = true -> (p <? 0.7)%float = true ->
       risk_level r = "Medium") /\
    ((0.7 <=? p)%float = true -> risk_level r = "High") /\
    (p = 0.3%float -> risk_level r = "Medium") /\
    (p = 0.7%float -> risk_level r = "High").
Proof.
  intros H.
  destruct (predict_fraud_Return _ _ _ H)
    as (clf & preds & prediction & probas & row & p
        & -> & _ & _ & Hq & Hq0 & Hq1 & ->).
  exists clf, probas, row, p. cbn [risk_level].
  destruct (risk_level_of_bands p) as (Hlow & Hmid & Hhigh).
  repeat split; try assumption.
  - intros ->. vm_compute. reflexivity.
  - intros ->. vm_compute. reflexivity.
Qed.

(** C4: with no model loaded the handler raises the "Model not loaded"
    HTTP error before anything else, for every claim; a response is
    returned only when a model is loaded. *)
Theorem model_unavailable model claim :
  (model = None ->
   predict_fraud round4 model claim = HTTPException 500 ModelNotLoaded) /\
  (forall r, predict_fraud round4 model claim = Return r ->
             exists clf, model = Some clf).
Proof.
  split.
  - intros ->. reflexivity.
  - intros r H. destruct model as [clf|]; [exists clf; reflexivity|].
    discriminate H.
Qed.

(** *** Case-insensitive comparison *)







(** *** When the handler returns *)

Lemma apply_tree_length (k : nat) (t : tree) (x : list float) :
  leaves_have k t = true -> length (apply_tree t x) = k.
Proof.
  induction t as [v|f th missing_left l IHl r IHr];
    cbn [leaves_have apply_tree].
  - intros H. apply Nat.eqb_eq, H.
  - intros H. apply andb_prop in H as [Hl Hr].
    destruct (PrimFloat.is_nan (List.nth f x nan)), missing_left,
      (List.nth f x nan <=? th)%float; auto.
Qed.

Lemma argmax_from_lt best ibest i xs :
  ibest < i -> argmax_from best ibest i xs < i + length xs.
Proof.
  revert best ibest i.
  induction xs as [|x xs IH]; intros best ibest i Hlt; cbn [argmax_from length].
  - lia.
  - destruct (best <? x)%float.
    + specialize (IH x i (S i)). lia.
    + specialize (IH best ibest (S i)). lia.
Qed.

Lemma argmax_lt (xs : list float) : xs <> [] -> argmax xs < length xs.
Proof.
  destruct xs as [|x xs]; [congruence|]. intros _.
  cbn [argmax length]. pose proof (argmax_from_lt x 0 1 xs). lia.
Qed.

Lemma nth_error_is_Some {A} (l : list A) (i : nat) :
  i < length l -> exists a, List.nth_error l i = Some a.
Proof.
  intros H. destruct (List.nth_error l i) as [a|] eqn:E; [eauto|].
  apply List.nth_error_None in E. lia.
Qed.

(** The handler's answer, from the two calls of the classifier. *)
Lemma predict_fraud_answer clf claim :
  predict_fraud round4 (Some clf) claim
  = answer round4 (convert_ints claim)
      (predict clf (features claim)) (predict_proba clf (features claim)).
Proof.
  unfold predict_fraud, predict_body, answer, verdict.
  destruct (convert_ints claim) as [[]|e]; cbn [rbind]; [|reflexivity].
  destruct (predict clf (features claim)) as [preds|e];
    cbn [rbind]; [|reflexivity].
  destruct (List.nth_error preds 0) as [prediction|];
    cbn [rbind of_option]; [|reflexivity].
  destruct (predict_proba clf (features claim)) as [probas|e];
    cbn [rbind]; [|reflexivity].
  destruct (List.nth_error probas 0) as [row|];
    cbn [rbind of_option]; [|reflexivity].
  destruct (List.nth_error row 1) as [probability|];
    cbn [rbind of_option]; reflexivity.
Qed.



(** The validation of the one-row array of a claim. *)
Lemma check_X_features clf claim :
  n_features_in_ clf = 13 ->
  existsb F.too_large32 (feature_row claim) = false ->
  check_X clf (features claim)
  = Ok [List.map F.to_float32 (feature_row claim)].
Proof.
  intros Hn Hfit. unfold features, check_X. cbn [rmap]. unfold check_row.
  rewrite Hfit, Hn. change (length (feature_row claim)) with 13.
  reflexivity.
Qed.

(** A two-class model over thirteen features answers every claim whose
    ints convert and whose feature values fit float32. *)
Lemma predict_fraud_returns clf claim :
  binary_on 13 clf = true ->
  convert_ints claim = Ok tt ->
  existsb F.too_large32 (feature_row claim) = false ->
  exists r, predict_fraud round4 (Some clf) claim = Return r.
Proof.
  intros Hwf Hints Hfit. unfold binary_on in Hwf.
  apply andb_prop in Hwf as [Hwf Hleaves].
  apply andb_prop in Hwf as [Hn Hcl].
  apply Nat.eqb_eq in Hn, Hcl.
  pose proof (check_X_features clf claim Hn Hfit) as Hcheck.
  set (x := List.map F.to_float32 (feature_row claim)) in *.
  pose proof (apply_tree_length 2 (tree_ clf) x Hleaves) as Hlen.
  destruct (nth_error_is_Some (classes_ clf)
              (argmax (apply_tree (tree_ clf) x)))
    as [prediction Hprediction].
  { rewrite Hcl, <- Hlen. apply argmax_lt.
    intros E. rewrite E in Hlen. discriminate. }
  destruct (nth_error_is_Some (proba_of_value (apply_tree (tree_ clf) x)) 1)
    as [p Hp].
  { unfold proba_of_value. rewrite List.length_map, Hlen. lia. }
  unfold predict_fraud, predict_body, predict, predict_proba.
  rewrite Hints, Hcheck. cbn [rbind rmap List.map].
  unfold predict_row. rewrite Hprediction.
  cbn [of_option rbind].
  change (List.nth_error [?x] 0) with (Some x). cbn [of_option rbind].
  rewrite Hp. cbn [of_option rbind]. eauto.
Qed.


(** C7 (as the code has it): the handler checks no range and clamps
    nothing.  The row handed to the classifier holds the amount, the
    claimant's age, the witness count and the other fields as they were
    sent, and whenever the classifier gives a class and a fraud
    probability for that row the claim is answered with a verdict,
    whatever the sign or size of its fields. *)
Theorem out_of_range_is_scored clf claim preds prediction probas row p :
  let X :=
    [[ claim_amount claim;
       F.of_Z (claim_age claim);
       F.of_Z (claimant_age claim);
       policy_duration claim;
       monthly_premium claim;
       F.of_Z (witnesses claim);
       F.of_Z (police_report claim);
       F.of_Z (injury_claim claim);
       F.of_Z (property_claim claim);
       F.of_Z (vehicle_claim claim);
       flag (String.eqb (lower (claim_type claim)) "auto");
       flag (String.eqb (lower (claim_type claim)) "home");
       flag (String.eqb (lower (claim_type claim)) "health") ]] in
  convert_ints claim = Ok tt ->
  predict clf X = Ok preds ->
  List.nth_error preds 0 = Some prediction ->
  predict_proba clf X = Ok probas ->
  List.nth_error probas 0 = Some row ->
  List.nth_error row 1 = Some p ->
  predict_fraud round4 (Some clf) claim = Return (verdict round4 prediction p).
Proof.
  intros X Hints Hp Hp0 Hq Hq0 Hq1.
  rewrite predict_fraud_answer.
  change (features claim) with X.
  rewrite Hints, Hp, Hq. unfold answer. rewrite Hp0, Hq0, Hq1. reflexivity.
Qed.

End ApiProperties.

Lemma risk_level_bands_witness :
  exists clf probas row p,
    Some Samples.stump = Some clf /\
    Sklearn.predict_proba clf (Api.features Samples.claim_large) = Ok probas /\
    List.nth_error probas 0 = Some row /\
    List.nth_error row 1 = Some p /\
    ((p <? 0.3)%float = true ->
       Api.risk_level Samples.response_large = "Low") /\
    ((0.3 <=? p)%float = true -> (p <? 0.7)%float = true ->
       Api.risk_level Samples.response_large = "Medium") /\
    ((0.7 <=? p)%float = true ->
       Api.risk_level Samples.response_large = "High") /\
    (p = 0.3%float -> Api.risk_level Samples.response_large = "Medium") /\
    (p = 0.7%float -> Api.risk_level Samples.response_large = "High").
Proof.
  apply (risk_level_bands (fun x => x) (Some Samples.stump)
           Samples.claim_large Samples.response_large).
  vm_compute. reflexivity.
Defined.

Lemma model_unavailable_witness :
  Api.predict_fraud (fun x => x) None Samples.claim_auto
  = Api.HTTPException 500 Api.ModelNotLoaded.
Proof.
  apply (model_unavailable (fun x => x) None Samples.claim_auto).
  reflexivity.
Defined.


(** C7 as the spec words it fails: a claim with a negative amount, a
    negative witness count and a claimant aged 900 is scored. *)
Lemma out_of_range_not_rejected :
  (Api.claim_amount Samples.claim_out_of_range <? 0)%float = true /\
  (Api.witnesses Samples.claim_out_of_range < 0)%Z /\
  (Api.claimant_age Samples.claim_out_of_range = 900)%Z /\
  Api.predict_fraud (fun x => x) (Some Samples.stump)
    Samples.claim_out_of_range
  = Api.Return Samples.response_out_of_range.
Proof.
  repeat split; vm_compute; reflexivity.
Qed.

Lemma out_of_range_is_scored_witness :
  Api.predict_fraud (fun x => x) (Some Samples.stump)
    Samples.claim_out_of_range
  = Api.Return (Api.verdict (fun x => x) 0 0.3).
Proof.
  apply (out_of_range_is_scored (fun x => x) Samples.stump
           Samples.claim_out_of_range [0%Z] 0%Z [[0.7; 0.3]%float]
           [0.7; 0.3]%float 0.3%float);
    vm_compute; reflexivity.
Defined.

(* ===================================================================== *)
(** ** Properties of the encoder *)
(* ===================================================================== *)

Import Pandas Sklearn Model Samples.

Section ModelProperties.

Variable py_float : string -> option float.

(** *** What a call leaves in the store *)

Lemma keeps_refl n w : keeps n w w.
Proof. split; [lia | reflexivity]. Qed.

Lemma keeps_trans n w1 w2 w3 : keeps n w1 w2 -> keeps n w2 w3 -> keeps n w1 w3.
Proof.
  intros [H1 H1'] [H2 H2']. split; [lia|].
  intros l Hl. rewrite H2', H1' by assumption. reflexivity.
Qed.

Lemma safe_pure {A} n (r : result A) (f : world -> world) :
  (forall w, frames (f w) = frames w) ->
  safe n (fun w => (r, f w)) (fun _ => True).
Proof.
  intros Hf w Hn. unfold keeps. cbn [fst snd]. split; [|trivial].
  split; [rewrite Hf; lia | intros l _; rewrite Hf; reflexivity].
Qed.

Lemma safe_bind {A B} n (c : M A) (k : A -> M B) (Q : A -> Prop)
    (R : B -> Prop) :
  safe n c Q -> (forall a, Q a -> safe n (k a) R) -> safe n (bind c k) R.
Proof.
  intros Hc Hk w Hn. unfold bind.
  destruct (Hc w Hn) as [Hkeep Hval].
  destruct (c w) as [[a|e] w'] eqn:E; cbn [fst snd] in *.
  - assert (Hn' : n <= length (frames w')) by (destruct Hkeep; lia).
    destruct (Hk a (Hval a eq_refl) w' Hn') as [Hkeep' Hval'].
    split; [eapply keeps_trans; eassumption | exact Hval'].
  - split; [exact Hkeep | discriminate].
Qed.

Lemma safe_ret {A} n (a : A) : safe n (ret a) (fun _ => True).
Proof. apply (safe_pure n (Ok a) (fun w => w)). reflexivity. Qed.

Lemma safe_raise {A} n e : safe n (@raise A e) (fun _ => True).
Proof. apply (safe_pure n (Raise e) (fun w => w)). reflexivity. Qed.

Lemma safe_lift {A} n (r : result A) : safe n (lift r) (fun _ => True).
Proof. apply (safe_pure n r (fun w => w)). reflexivity. Qed.

Lemma safe_get_self n : safe n get_self (fun _ => True).
Proof.
  intros w Hn. split; [apply keeps_refl | trivial].
Qed.

Lemma safe_put_self n s : safe n (put_self s) (fun _ => True).
Proof. apply (safe_pure n (Ok tt) (fun w => set_self w s)). reflexivity. Qed.

Lemma safe_df_read n X : safe n (df_read X) (fun _ => True).
Proof.
  intros w Hn. split; [apply keeps_refl | trivial].
Qed.

(** A new frame lands above everything that was there. *)
Lemma safe_df_new n df : safe n (df_new df) (fun X => n <= X).
Proof.
  intros w Hn. unfold df_new, keeps. cbn [fst snd frames set_frames]. split.
  - split; [rewrite length_app; lia|].
    intros l Hl. apply lookup_app_l. lia.
  - intros a [= <-]. exact Hn.
Qed.

Lemma safe_df_copy n X : safe n (df_copy X) (fun X' => n <= X').
Proof.
  unfold df_copy. eapply safe_bind; [apply safe_df_read|].
  intros df _. apply safe_df_new.
Qed.

(** Writing a column through a reference touches that frame only. *)
Lemma safe_df_setitem n X col v :
  n <= X -> safe n (df_setitem X col v) (fun _ => True).
Proof.
  intros HX. unfold df_setitem.
  eapply safe_bind; [apply safe_df_read|].
  intros df _ w Hn. unfold keeps. cbn [fst snd frames set_frames].
  split; [|trivial].
  split; [rewrite length_insert; lia|].
  intros l Hl. apply list_lookup_insert_ne. lia.
Qed.

Lemma safe_df_astype_str n X col :
  safe n (df_astype_str X col) (fun _ => True).
Proof.
  unfold df_astype_str. eapply safe_bind; [apply safe_df_read|].
  intros df _. destruct (getcol df col) as [[xs|cells]|].
  - apply safe_raise.
  - apply safe_ret.
  - apply safe_raise.
Qed.

Lemma safe_update n (f : FraudDetectionModel -> FraudDetectionModel) :
  safe n (bind get_self (fun s => put_self (f s))) (fun _ => True).
Proof.
  eapply safe_bind; [apply safe_get_self|].
  intros s _. apply safe_put_self.
Qed.

Lemma safe_for_each {A} n (l : list A) (body : A -> M unit) :
  (forall x, safe n (body x) (fun _ => True)) ->
  safe n (for_each l body) (fun _ => True).
Proof.
  intros Hbody. induction l as [|x l IH]; cbn [for_each].
  - apply safe_ret.
  - eapply safe_bind; [apply Hbody|]. intros _ _. exact IH.
Qed.

Lemma safe_encode_column n X fit col :
  n <= X -> safe n (encode_column X fit col) (fun _ => True).
Proof.
  intros HX. unfold encode_column. destruct fit.
  - eapply safe_bind; [apply safe_df_astype_str|]. intros vals _.
    eapply safe_bind; [apply safe_lift|]. intros codes _.
    eapply safe_bind; [apply safe_df_setitem, HX|]. intros _ _.
    apply safe_update.
  - eapply safe_bind; [apply safe_get_self|]. intros s _.
    destruct (label_encoders s !! col) as [le|]; [|apply safe_ret].
    eapply safe_bind; [apply safe_df_astype_str|]. intros vals _.
    eapply safe_bind; [apply safe_lift|]. intros codes _.
    apply safe_df_setitem, HX.
Qed.

Lemma safe_preprocess_data n X fit :
  safe n (preprocess_data py_float X fit) (fun _ => True).
Proof.
  unfold preprocess_data.
  eapply safe_bind; [apply safe_df_copy|]. intros X0 HX0.
  eapply safe_bind; [apply safe_df_read|]. intros df _.
  eapply safe_bind.
  { apply safe_for_each. intros col. apply safe_encode_column, HX0. }
  intros _ _.
  eapply safe_bind; [apply safe_df_read|]. intros df1 _.
  eapply safe_bind; [apply safe_df_new|]. intros X1 HX1.
  eapply safe_bind; [apply safe_df_read|]. intros df2 _.
  destruct fit.
  - eapply safe_bind; [apply safe_update|]. intros _ _.
    eapply safe_bind; [apply safe_get_self|]. intros s _.
    eapply safe_bind; [apply safe_update|]. intros _ _.
    eapply safe_bind; [apply safe_lift|]. intros ps _.
    eapply safe_bind; [apply safe_update|]. intros _ _.
    eapply safe_bind; [apply safe_lift|]. intros Xs _.
    apply safe_ret.
  - eapply safe_bind; [apply safe_get_self|]. intros s _.
    eapply safe_bind; [apply safe_lift|]. intros Xs _.
    apply safe_ret.
Qed.

(** A reference to nothing: the copy raises at once. *)
Lemma preprocess_data_dangling (w : world) (X : loc) (fit : bool) :
  frames w !! X = None ->
  preprocess_data py_float X fit w = (Raise KeyError, w).
Proof.
  intros E. unfold preprocess_data, df_copy, bind, df_read. rewrite E.
  reflexivity.
Qed.

(** Frames that were in the store before the call are still there. *)
Lemma preprocess_data_keeps_all (w : world) (X l : loc) (fit : bool)
    (df : DataFrame) :
  frames w !! l = Some df ->
  frames (snd (preprocess_data py_float X fit w)) !! l = Some df.
Proof.
  intros Hl.
  destruct (safe_preprocess_data (length (frames w)) X fit w (Nat.le_refl _))
    as [[Hlen Hkeep] _].
  rewrite Hkeep; [exact Hl|]. eapply lookup_lt_Some, Hl.
Qed.

Lemma preprocess_data_keeps (w : world) (X : loc) (fit : bool) :
  frames (snd (preprocess_data py_float X fit w)) !! X = frames w !! X.
Proof.
  destruct (frames w !! X) as [df|] eqn:E.
  - apply preprocess_data_keeps_all, E.
  - rewrite preprocess_data_dangling by assumption. exact E.
Qed.

(** C10: [preprocess_data] leaves the caller's frame as it was, with
    [fit=True] and with [fit=False], whether it returns or raises; so are
    all the frames that existed before the call. *)
Theorem preprocess_data_keeps_input (w : world) (X : loc) (fit : bool) :
  frames (snd (preprocess_data py_float X fit w)) !! X = frames w !! X /\
  forall l df, frames w !! l = Some df ->
               frames (snd (preprocess_data py_float X fit w)) !! l = Some df.
Proof.
  split.
  - apply preprocess_data_keeps.
  - intros l df. apply preprocess_data_keeps_all.
Qed.

(** *** The call with [fit=False] as a function of state and frame *)

Lemma for_each_encode_false (X : loc) (cols : list string) :
  forall w df,
    frames w !! X = Some df ->
    exists w',
      for_each cols (encode_column X false) w
      = (rbind (encode_loop (label_encoders (self w)) cols df)
           (fun _ => Ok tt), w') /\
      self w' = self w /\ files w' = files w /\
      forall df', encode_loop (label_encoders (self w)) cols df = Ok df' ->
                  frames w' !! X = Some df'.
Proof.
  induction cols as [|col cols IH]; intros w df Hdf.
  - exists w. cbn. repeat split. intros df' [= <-]. exact Hdf.
  - cbn [for_each encode_loop]. unfold bind at 1.
    unfold encode_column, encode_step, bind at 1, get_self.
    destruct (label_encoders (self w) !! col) as [le|] eqn:Hle.
    + unfold df_astype_str, bind at 1 2 3, df_read. rewrite Hdf.
      cbn [of_option].
      destruct (getcol df col) as [[xs|cells]|];
        try (exists w; cbn; repeat split; discriminate).
      unfold ret, lift.
      destruct (le_transform le (astype_str cells)) as [codes|e];
        [|exists w; cbn; repeat split; discriminate].
      unfold df_setitem, bind, df_read. rewrite Hdf. cbn [of_option rbind].
      set (w1 := set_frames w (<[X:=setcol df col (NumCol codes)]> (frames w))).
      destruct (IH w1 (setcol df col (NumCol codes))) as (w' & Hrun & Hs & Hf & Hx).
      { apply list_lookup_insert_eq. eapply lookup_lt_Some, Hdf. }
      exists w'. repeat split; assumption.
    + unfold ret. cbn [rbind].
      destruct (IH w df Hdf) as (w' & Hrun & Hs & Hf & Hx).
      exists w'. repeat split; assumption.
Qed.

Lemma preprocess_data_false (w : world) (X : loc) (df : DataFrame) :
  frames w !! X = Some df ->
  exists w',
    preprocess_data py_float X false w = (encoded py_float (self w) df, w') /\
    self w' = self w /\ files w' = files w.
Proof.
  intros Hdf. unfold preprocess_data, encoded.
  unfold df_copy, bind at 1 2, df_read at 1. rewrite Hdf. cbn [of_option].
  unfold df_new at 1.
  set (w0 := set_frames w (frames w ++ [df])).
  assert (H0 : frames w0 !! length (frames w) = Some df).
  { cbn [w0 frames set_frames]. apply list_lookup_middle. reflexivity. }
  unfold bind at 1, df_read at 1. rewrite H0. cbn [of_option].
  destruct (for_each_encode_false (length (frames w))
              (select_dtypes_object df) w0 df H0)
    as (w1 & Hrun & Hs1 & Hf1 & Hx1).
  unfold bind at 1. rewrite Hrun.
  change (label_encoders (self w0)) with (label_encoders (self w)) in *.
  destruct (encode_loop (label_encoders (self w)) (select_dtypes_object df) df)
    as [df1|e]; cbn [rbind].
  - specialize (Hx1 df1 eq_refl).
    unfold bind at 1, df_read at 1. rewrite Hx1. cbn [of_option].
    unfold bind at 1, df_new at 1.
    set (w2 := set_frames w1 (frames w1 ++ [fillna_mean df1])).
    assert (H2 : frames w2 !! length (frames w1) = Some (fillna_mean df1)).
    { cbn [w2 frames set_frames]. apply list_lookup_middle. reflexivity. }
    unfold bind at 1, df_read at 1. rewrite H2. cbn [of_option].
    unfold bind at 1, get_self, bind, lift, ret, scaled.
    change (self w2) with (self w1). rewrite Hs1.
    change (self w0) with (self w).
    exists w2.
    destruct (scaler_transform py_float (scaler (self w)) (fillna_mean df1));
      cbn [rbind]; repeat split; try exact Hs1; exact Hf1.
  - exists w1. repeat split; [exact Hs1 | exact Hf1].
Qed.

(** C8: with [fit=False] the encoder state is only read, and the result
    is a function of that state and of the content of the frame: a second
    run on the same frame, in the world the first run left, gives the same
    result, and so do two runs from any two worlds that agree on the
    state and on the frame. *)
Theorem encoding_deterministic (w : world) (X : loc) :
  let run1 := preprocess_data py_float X false w in
  let run2 := preprocess_data py_float X false (snd run1) in
  self (snd run1) = self w /\
  fst run2 = fst run1 /\
  forall w' X',
    self w' = self w ->
    frames w' !! X' = frames w !! X ->
    fst (preprocess_data py_float X' false w') = fst run1.
Proof.
  cbv zeta.
  assert (Hagree : forall w' X',
            self w' = self w -> frames w' !! X' = frames w !! X ->
            fst (preprocess_data py_float X' false w')
            = fst (preprocess_data py_float X false w)).
  { intros w' X' Hs Hfr.
    destruct (frames w !! X) as [df|] eqn:E.
    - destruct (preprocess_data_false w X df E) as (w1 & -> & _).
      destruct (preprocess_data_false w' X' df Hfr) as (w2 & -> & _).
      rewrite Hs. reflexivity.
    - rewrite !preprocess_data_dangling by assumption. reflexivity. }
  assert (Hself : self (snd (preprocess_data py_float X false w)) = self w).
  { destruct (frames w !! X) as [df|] eqn:E.
    - destruct (preprocess_data_false w X df E) as (w1 & -> & Hs & _).
      exact Hs.
    - rewrite preprocess_data_dangling by assumption. reflexivity. }
  split; [exact Hself|]. split; [|exact Hagree].
  apply Hagree; [exact Hself|].
  apply preprocess_data_keeps.
Qed.

(** *** Columns through the loop and the imputation *)

Lemma getcol_setcol_ne (df : DataFrame) (col name : string) (v : column) :
  col <> name -> getcol (setcol df col v) name = getcol df name.
Proof.
  intros Hne. induction df as [|[n c] df IH]; cbn [setcol getcol].
  - destruct (String.eqb_spec col name); [contradiction | reflexivity].
  - destruct (String.eqb_spec n col) as [->|Hn]; cbn [getcol].
    + destruct (String.eqb_spec col name); [contradiction | reflexivity].
    + destruct (String.eqb_spec n name); [reflexivity | exact IH].
Qed.

Lemma encode_step_getcol les (df df' : DataFrame) (col name : string) :
  encode_step les df col = Ok df' ->
  col <> name \/ les !! col = None ->
  getcol df' name = getcol df name.
Proof.
  unfold encode_step. intros Hstep Hcol.
  destruct (les !! col) as [le|] eqn:Hle.
  - destruct Hcol as [Hne|?]; [|discriminate].
    destruct (getcol df col) as [[xs|cells]|]; try discriminate.
    destruct (le_transform le (astype_str cells)) as [codes|];
      cbn [rbind] in Hstep; [|discriminate].
    injection Hstep as <-. apply getcol_setcol_ne, Hne.
  - injection Hstep as <-. reflexivity.
Qed.

Lemma encode_loop_getcol les (cols : list string) (name : string) :
  forall df df',
    encode_loop les cols df = Ok df' ->
    Forall (fun col => col <> name \/ les !! col = None) cols ->
    getcol df' name = getcol df name.
Proof.
  induction cols as [|col cols IH]; intros df df' Hloop Hcols;
    cbn [encode_loop] in Hloop.
  - injection Hloop as <-. reflexivity.
  - apply Forall_cons in Hcols as [Hcol Hcols].
    destruct (encode_step les df col) as [df1|] eqn:Hstep;
      cbn [rbind] in Hloop; [|discriminate].
    rewrite (IH df1 df' Hloop Hcols).
    eapply encode_step_getcol; eassumption.
Qed.

Lemma encode_loop_unmapped les (cols : list string) (df : DataFrame) :
  Forall (fun col => les !! col = None) cols ->
  encode_loop les cols df = Ok df.
Proof.
  induction 1 as [|col cols Hcol _ IH]; cbn [encode_loop]; [reflexivity|].
  unfold encode_step. rewrite Hcol. exact IH.
Qed.

Lemma getcol_fillna_mean (df : DataFrame) (name : string) :
  getcol (fillna_mean df) name = option_map fillna_col (getcol df name).
Proof.
  induction df as [|[n c] df IH]; cbn [fillna_mean List.map getcol fst snd];
    [reflexivity|].
  destruct (String.eqb n name); [reflexivity | exact IH].
Qed.

Lemma fill_missing (v : float) (xs : list float) (i : nat) (x : float) :
  xs !! i = Some x -> F.is_missing x = true -> fill v xs !! i = Some v.
Proof.
  intros Hx Hm. unfold fill.
  change (List.map ?f xs) with (f <$> xs).
  rewrite list_lookup_fmap, Hx. cbn. rewrite Hm. reflexivity.
Qed.

Lemma not_object_column (df : DataFrame) (name : string) (xs : list float) :
  NoDup (columns df) ->
  getcol df name = Some (NumCol xs) ->
  ~ In name (select_dtypes_object df).
Proof.
  unfold columns, select_dtypes_object.
  induction df as [|[n c] df IH]; cbn [List.map List.filter getcol fst snd];
    [tauto|].
  intros Hnd Hget. apply NoDup_cons in Hnd as [Hn Hnd].
  destruct (String.eqb_spec n name) as [->|Hne].
  - injection Hget as ->. cbn [is_object]. intros Hin. apply Hn.
    apply list_elem_of_In.
    apply List.in_map_iff in Hin as ([n' c'] & <- & Hin').
    apply List.filter_In in Hin' as [Hin' _].
    apply List.in_map_iff. exists (n', c'). split; [reflexivity | exact Hin'].
  - specialize (IH Hnd Hget).
    destruct (is_object c); cbn [List.map fst]; [|exact IH].
    intros [E|Hin]; [congruence | exact (IH Hin)].
Qed.

(** C6 (as the code has it): with [fit=False] a missing value of a
    numeric column is replaced by the mean of the values present in that
    column of the table being encoded; the encoder state plays no part in
    the value.  The table so filled is what the scaler receives. *)
Theorem missing_filled_with_table_mean (w : world) (X : loc)
    (df : DataFrame) (name : string) (xs : list float) :
  frames w !! X = Some df ->
  NoDup (columns df) ->
  getcol df name = Some (NumCol xs) ->
  match encode_loop (label_encoders (self w)) (select_dtypes_object df) df with
  | Raise e => fst (preprocess_data py_float X false w) = Raise e
  | Ok df1 =>
      fst (preprocess_data py_float X false w)
      = scaled py_float (scaler (self w)) (fillna_mean df1) /\
      getcol (fillna_mean df1) name
      = Some (NumCol (fill (F.nanmean xs) xs)) /\
      forall i x, xs !! i = Some x -> F.is_missing x = true ->
                  fill (F.nanmean xs) xs !! i = Some (F.nanmean xs)
  end.
Proof.
  intros Hdf Hnd Hget.
  destruct (preprocess_data_false w X df Hdf) as (w' & -> & _).
  cbn [fst]. unfold encoded.
  destruct (encode_loop (label_encoders (self w)) (select_dtypes_object df) df)
    as [df1|e] eqn:Hloop; cbn [rbind]; [|reflexivity].
  split; [reflexivity|]. split.
  - rewrite getcol_fillna_mean.
    rewrite (encode_loop_getcol _ _ name _ _ Hloop), Hget; [reflexivity|].
    apply List.Forall_forall. intros col Hcol. left. intros ->.
    exact (not_object_column df name xs Hnd Hget Hcol).
  - intros i x. apply fill_missing.
Qed.


(** C5 (as the code has it): [save_model] writes the classifier held in
    [self.model] and nothing else of the wrapper: the file does not
    depend on the scaler, the label encoders or the feature order.
    [load_model] gives that classifier back unchanged. *)
Theorem save_then_load_model (w : world) (path : string) :
  fst (save_model path w) = Ok tt /\
  self (snd (save_model path w)) = self w /\
  fst (load_model path (snd (save_model path w))) = Ok (model (self w)) /\
  forall s' : FraudDetectionModel,
    model s' = model (self w) ->
    files (snd (save_model path (set_self w s')))
    = files (snd (save_model path w)).
Proof.
  unfold save_model, load_model, bind, get_self.
  cbn [fst snd self files set_files set_self]. repeat split.
  - rewrite lookup_insert_eq. reflexivity.
  - intros s' ->. reflexivity.
Qed.

End ModelProperties.

Lemma preprocess_data_keeps_input_witness :
  frames (snd (preprocess_data float_of_digits 0 true
                 (world_of (init 42) [raw_table]))) !! 0
  = Some raw_table.
Proof.
  apply (proj2 (preprocess_data_keeps_input float_of_digits
                  (world_of (init 42) [raw_table]) 0 true)).
  reflexivity.
Defined.

(** The store does record writes: the loop body run on the caller's own
    reference, without the copy, overwrites the caller's column. *)
Example loop_body_writes_through :
  frames (snd (encode_column 0 true "claim_type"
                 (world_of (init 42) [raw_table]))) !! 0
  = Some (setcol raw_table "claim_type" (NumCol [0; 1]%float)).
Proof. vm_compute. reflexivity. Qed.

Lemma encoding_deterministic_witness :
  fst (preprocess_data float_of_digits 1 false
         (snd (preprocess_data float_of_digits 1 false
                 (fitted_on train_x [test_x]))))
  = fst (preprocess_data float_of_digits 1 false (fitted_on train_x [test_x])).
Proof.
  exact (proj1 (proj2 (encoding_deterministic float_of_digits
                         (fitted_on train_x [test_x]) 1))).
Defined.

(** C6 as the spec words it fails: fitted on a column of mean 2, the
    encoder fills the gap in [10; NaN; 20] with 15, the mean of the table
    at hand, and returns 13 for that row; filling with the mean kept from
    fit time would give 0. *)
Lemma imputation_uses_table_at_hand :
  scaler (self (fitted_on train_x [test_x]))
  = Fitted {| feature_names_in_ := ["x"];
              mean_ := [2%float];
              scale_ := [1%float] |} /\
  fst (preprocess_data float_of_digits 1 false (fitted_on train_x [test_x]))
  = Ok ([[8]; [13]; [18]]%float, ["x"]) /\
  scaled float_of_digits (scaler (self (fitted_on train_x [test_x])))
    (spec_fillna_frozen [2%float] test_x)
  = Ok ([[8]; [0]; [18]]%float, ["x"]).
Proof.
  repeat split; vm_compute; reflexivity.
Qed.

Lemma missing_filled_with_table_mean_witness :
  fst (preprocess_data float_of_digits 1 false (fitted_on train_x [test_x]))
  = scaled float_of_digits (scaler (self (fitted_on train_x [test_x])))
      (fillna_mean test_x) /\
  getcol (fillna_mean test_x) "x"
  = Some (NumCol (fill (F.nanmean [10; nan; 20]%float) [10; nan; 20]%float)) /\
  forall i x,
    [10; nan; 20]%float !! i = Some x -> F.is_missing x = true ->
    fill (F.nanmean [10; nan; 20]%float) [10; nan; 20]%float !! i
    = Some (F.nanmean [10; nan; 20]%float).
Proof.
  assert (H1 : frames (fitted_on train_x [test_x]) !! 1 = Some test_x)
    by (vm_compute; reflexivity).
  assert (H2 : NoDup (columns test_x)) by apply NoDup_singleton.
  exact (missing_filled_with_table_mean float_of_digits
           (fitted_on train_x [test_x]) 1 test_x "x" _ H1 H2 eq_refl).
Defined.



(** C5 as the spec words it fails: two wrappers with different scalers
    save the same file, and the wrapper that was saved classifies a new
    claim as 0 while the object loaded back classifies it as 1. *)
Lemma saved_artifact_lacks_fit_state :
  scaler trained <> scaler trained_elsewhere /\
  files (snd (save_model "model.pkl" (world_of trained [new_x])))
  = files (snd (save_model "model.pkl" (world_of trained_elsewhere [new_x]))) /\
  fst (Model.predict float_of_digits 0 (world_of trained [new_x]))
  = Ok ([0%Z], [[1; 0]]%float) /\
  fst (load_model "model.pkl"
         (snd (save_model "model.pkl" (world_of trained [new_x]))))
  = Ok (Some tree1) /\
  Sklearn.predict tree1 [[115%float]] = Ok [1%Z].
Proof.
  split.
  - intros H.
    set (zero_mean := fun sc =>
           match sc with
           | Fitted ps => forallb (fun m => (m =? 0)%float) (mean_ ps)
           | _ => false
           end).
    assert (E : zero_mean (scaler trained) = zero_mean (scaler trained_elsewhere))
      by (rewrite H; reflexivity).
    vm_compute in E. discriminate E.
  - repeat split; vm_compute; reflexivity.
Qed.

Lemma save_then_load_model_witness :
  fst (load_model "model.pkl"
         (snd (save_model "model.pkl" (world_of trained [new_x]))))
  = Ok (Some tree1).
Proof.
  exact (proj1 (proj2 (proj2 (save_then_load_model
                                (world_of trained [new_x]) "model.pkl")))).
Defined.

(** C1 on a training table with the columns of the request schema: the
    encoder fixes eleven columns with the claim type third, the endpoint
    sends thirteen values with the claimant's age third, and a tree fitted
    on the eleven columns refuses the row. *)
Theorem serving_vector_differs_from_training_columns :
  feature_columns (self (fitted_on raw_table []))
  = Some ["claim_amount"; "claim_age"; "claim_type"; "claimant_age";
          "policy_duration"; "monthly_premium"; "witnesses"; "police_report";
          "injury_claim"; "property_claim"; "vehicle_claim"] /\
  length (Api.feature_row claim_auto) = 13 /\
  Api.feature_row claim_auto !! 2 = Some (F.of_Z (Api.claimant_age claim_auto)) /\
  Api.predict_fraud (fun x => x) (Some tree11) claim_auto
  = Api.HTTPException 400 (Api.PredictionError ValueError).
Proof.
  repeat split; vm_compute; reflexivity.
Qed.

(* ===================================================================== *)
(** ** Further properties: results, labels and frames *)
(* ===================================================================== *)

Section ResultLists.

Context {A B : Type}.
Variable f : A -> result B.

Lemma rmap_Ok_length (l : list A) (ys : list B) :
  rmap f l = Ok ys -> length ys = length l.
Proof.
  revert ys. induction l as [|x l IH]; intros ys; cbn [rmap].
  - intros [= <-]. reflexivity.
  - destruct (f x) as [y|]; cbn [rbind]; [|discriminate].
    destruct (rmap f l) as [ys'|]; cbn [rbind]; [|discriminate].
    intros [= <-]. cbn [length]. f_equal. apply IH. reflexivity.
Qed.

Lemma rmap_Ok_all (l : list A) (ys : list B) :
  rmap f l = Ok ys -> forall x, In x l -> exists y, f x = Ok y.
Proof.
  revert ys. induction l as [|x l IH]; intros ys; cbn [rmap]; [intros _ ? []|].
  destruct (f x) as [y|] eqn:Hx; cbn [rbind]; [|discriminate].
  destruct (rmap f l) as [ys'|]; cbn [rbind]; [|discriminate].
  intros _ x' [<-|Hin]; [eauto | eapply IH; eauto].
Qed.

Lemma rmap_all_Ok (l : list A) :
  (forall x, In x l -> exists y, f x = Ok y) -> exists ys, rmap f l = Ok ys.
Proof.
  induction l as [|x l IH]; intros Hall; cbn [rmap]; [eauto|].
  destruct (Hall x (or_introl eq_refl)) as [y ->]. cbn [rbind].
  destruct IH as [ys ->]; [intros; apply Hall; right; assumption|].
  cbn [rbind]. eauto.
Qed.

Lemma rmap_Raise (l : list A) (e : exn) :
  rmap f l = Raise e -> exists x, In x l /\ f x = Raise e.
Proof.
  induction l as [|x l IH]; cbn [rmap]; [discriminate|].
  destruct (f x) as [y|e'] eqn:Hx; cbn [rbind].
  - destruct (rmap f l) as [ys'|e']; cbn [rbind]; [discriminate|].
    intros [= ->]. destruct (IH eq_refl) as (x' & Hin & Hx').
    exists x'. split; [right|]; assumption.
  - intros [= ->]. exists x. split; [left; reflexivity | assumption].
Qed.

End ResultLists.

Section LabelProperties.

Import Sklearn.

Lemma in_insert_sorted (y s : string) (l : list string) :
  In y (insert_sorted s l) <-> y = s \/ In y l.
Proof.
  induction l as [|t l IH]; cbn [insert_sorted].
  - cbn. intuition.
  - destruct (String.eqb_spec s t) as [->|Hne].
    + cbn. intuition.
    + destruct (String.leb s t); cbn [In]; [intuition|].
      rewrite IH. intuition.
Qed.

Lemma in_unique (y : string) (ys : list string) :
  In y (unique ys) <-> In y ys.
Proof.
  unfold unique. induction ys as [|x ys IH]; cbn [fold_right]; [reflexivity|].
  rewrite in_insert_sorted, IH. cbn. intuition.
Qed.

Lemma index_of_None (y : string) (classes : list string) :
  index_of y classes = None <-> ~ In y classes.
Proof.
  induction classes as [|c classes IH]; cbn [index_of In]; [intuition|].
  destruct (String.eqb_spec c y) as [->|Hne].
  - split; [discriminate | intros H; exfalso; apply H; left; reflexivity].
  - split; intros H.
    + destruct (index_of y classes); [discriminate|].
      intros [E|Hin]; [contradiction|]. apply (proj1 IH); trivial.
    + destruct (index_of y classes) eqn:E; [|reflexivity].
      exfalso. apply H. right.
      destruct (in_dec string_dec y classes) as [Hin|Hnin]; [exact Hin|].
      apply IH in Hnin. discriminate.
Qed.

(** The encoder fitted on a list of labels encodes that list. *)
Lemma le_fit_transform (ys : list string) :
  exists codes,
    le_transform (le_fit ys) ys = Ok codes /\ length codes = length ys.
Proof.
  destruct (rmap_all_Ok
              (fun y => of_option ValueError
                 (option_map F.of_nat (index_of y (le_classes_ (le_fit ys)))))
              ys) as [codes Hcodes].
  - intros y Hy. cbn [le_fit le_classes_].
    destruct (index_of y (unique ys)) as [i|] eqn:E; cbn; [eauto|].
    apply index_of_None in E. exfalso. apply E, in_unique, Hy.
  - exists codes. split; [exact Hcodes|].
    eapply rmap_Ok_length, Hcodes.
Qed.

(** A label the encoder has not seen makes [transform] raise. *)
Lemma le_transform_unseen (le : LabelEncoder) (ys : list string) (y : string) :
  In y ys -> ~ In y (le_classes_ le) -> le_transform le ys = Raise ValueError.
Proof.
  intros Hy Hnew. unfold le_transform.
  destruct (rmap _ ys) as [codes|e] eqn:E.
  - destruct (rmap_Ok_all _ _ _ E y Hy) as [c Hc].
    apply index_of_None in Hnew. rewrite Hnew in Hc. discriminate.
  - apply rmap_Raise in E as (x & _ & Hx).
    destruct (index_of x (le_classes_ le)); cbn in Hx; congruence.
Qed.

Lemma le_transform_length (le : LabelEncoder) (ys : list string)
    (codes : list float) :
  le_transform le ys = Ok codes -> length codes = length ys.
Proof. apply rmap_Ok_length. Qed.

Lemma le_transform_error (le : LabelEncoder) (ys : list string) (e : exn) :
  le_transform le ys = Raise e -> e = ValueError.
Proof.
  intros E. apply rmap_Raise in E as (x & _ & Hx).
  destruct (index_of x (le_classes_ le)); cbn in Hx; congruence.
Qed.

End LabelProperties.

Section FrameProperties.

Import Pandas.

Lemma getcol_Some_In (df : DataFrame) (col : string) (c : column) :
  getcol df col = Some c -> In col (columns df).
Proof.
  induction df as [|[n c'] df IH]; cbn [getcol columns List.map fst];
    [discriminate|].
  destruct (String.eqb_spec n col) as [->|Hne]; [left; reflexivity|].
  intros H. right. apply IH, H.
Qed.

Lemma In_getcol (df : DataFrame) (col : string) :
  In col (columns df) -> exists c, getcol df col = Some c.
Proof.
  induction df as [|[n c'] df IH]; cbn [getcol columns List.map fst];
    [intros []|].
  destruct (String.eqb_spec n col) as [->|Hne]; [eauto|].
  intros [E|Hin]; [contradiction | apply IH, Hin].
Qed.

Lemma select_In_columns (df : DataFrame) (col : string) :
  In col (select_dtypes_object df) -> In col (columns df).
Proof.
  unfold select_dtypes_object, columns. intros Hin.
  apply List.in_map_iff in Hin as (nc & <- & Hnc).
  apply List.filter_In in Hnc as [Hnc _].
  apply List.in_map, Hnc.
Qed.

(** With distinct labels, the columns [select_dtypes] lists are the ones
    [X[col]] finds of object dtype. *)
Lemma select_getcol (df : DataFrame) (col : string) :
  NoDup (columns df) ->
  In col (select_dtypes_object df) ->
  exists cells, getcol df col = Some (ObjCol cells).
Proof.
  unfold select_dtypes_object, columns.
  induction df as [|[n c] df IH]; cbn [List.map List.filter getcol fst snd];
    [intros _ []|].
  intros Hnd Hin. apply NoDup_cons in Hnd as [Hn Hnd].
  destruct (String.eqb_spec n col) as [->|Hne].
  - destruct c as [xs|cells]; cbn [is_object] in Hin; [|eauto].
    exfalso. apply Hn, list_elem_of_In.
    apply (select_In_columns df col Hin).
  - apply IH; [exact Hnd|].
    destruct (is_object c); [|exact Hin].
    destruct Hin as [E|Hin]; [contradiction | exact Hin].
Qed.

Lemma getcol_select (df : DataFrame) (col : string)
    (cells : list (option string)) :
  getcol df col = Some (ObjCol cells) -> In col (select_dtypes_object df).
Proof.
  unfold select_dtypes_object.
  induction df as [|[n c] df IH]; cbn [List.map List.filter getcol fst snd];
    [discriminate|].
  destruct (String.eqb_spec n col) as [->|Hne].
  - intros [= ->]. cbn [is_object List.map fst]. left. reflexivity.
  - intros H. specialize (IH H).
    destruct (is_object c); [right|]; exact IH.
Qed.

Lemma NoDup_select (df : DataFrame) :
  NoDup (columns df) -> NoDup (select_dtypes_object df).
Proof.
  unfold select_dtypes_object, columns.
  induction df as [|[n c] df IH]; cbn [List.map List.filter fst snd];
    [intros _; constructor|].
  intros Hnd. apply NoDup_cons in Hnd as [Hn Hnd].
  destruct (is_object c); cbn [List.map fst]; [|apply IH, Hnd].
  apply NoDup_cons. split; [|apply IH, Hnd].
  intros Hin. apply Hn, list_elem_of_In.
  apply list_elem_of_In in Hin. apply (select_In_columns df n Hin).
Qed.

(** *** Frames of the same shape *)

Lemma same_shape_refl (df : DataFrame) : Model.same_shape df df.
Proof.
  unfold Model.same_shape. induction df; constructor; auto.
Qed.

Lemma same_shape_trans (df1 df2 df3 : DataFrame) :
  Model.same_shape df1 df2 -> Model.same_shape df2 df3 ->
  Model.same_shape df1 df3.
Proof.
  unfold Model.same_shape. intros H12. revert df3.
  induction H12 as [|a b l k [Hn Hl] _ IH]; intros df3 H23;
    inversion H23 as [|b' c k' m [Hn' Hl'] Hrest]; subst; constructor.
  - split; congruence.
  - apply IH, Hrest.
Qed.

Lemma same_shape_columns (df df' : DataFrame) :
  Model.same_shape df df' -> columns df' = columns df.
Proof.
  unfold Model.same_shape, columns.
  induction 1 as [|a b l k [Hn _] _ IH]; cbn [List.map]; [reflexivity|].
  rewrite IH, Hn. reflexivity.
Qed.

Lemma same_shape_n_rows (df df' : DataFrame) :
  Model.same_shape df df' -> n_rows df' = n_rows df.
Proof.
  unfold Model.same_shape.
  destruct 1 as [|[n c] [n' c'] l k [_ Hl] _]; cbn [n_rows]; [reflexivity|].
  cbn [snd] in Hl. symmetry. exact Hl.
Qed.

Lemma same_shape_length (df df' : DataFrame) :
  Model.same_shape df df' -> length df' = length df.
Proof. intros H. symmetry. eapply Forall2_length, H. Qed.

Lemma same_shape_setcol (df : DataFrame) (col : string) (c v : column) :
  getcol df col = Some c -> col_length v = col_length c ->
  Model.same_shape df (setcol df col v).
Proof.
  unfold Model.same_shape. intros Hget Hlen.
  induction df as [|[n c'] df IH]; cbn [getcol setcol] in *; [discriminate|].
  destruct (String.eqb_spec n col) as [->|Hne].
  - injection Hget as ->. constructor; [split; [reflexivity | symmetry; exact Hlen]|].
    apply same_shape_refl.
  - constructor; [split; reflexivity | apply IH, Hget].
Qed.

Lemma fill_length (v : float) (xs : list float) : length (fill v xs) = length xs.
Proof. unfold fill. apply List.length_map. Qed.

Lemma same_shape_fillna_mean (df : DataFrame) :
  Model.same_shape df (fillna_mean df).
Proof.
  unfold Model.same_shape, fillna_mean.
  induction df as [|[n c] df IH]; cbn [List.map]; constructor; [|exact IH].
  split; [reflexivity|]. cbn [fst snd].
  destruct c as [xs|cells]; cbn [fillna_col col_length]; [|reflexivity].
  symmetry. apply fill_length.
Qed.

End FrameProperties.

(* ===================================================================== *)
(** ** Further properties of the encoder: the call with [fit=True] *)
(* ===================================================================== *)

Section FitProperties.

Variable py_float : string -> option float.

Lemma for_each_encode_true (X : loc) (cols : list string) :
  forall w df,
    frames w !! X = Some df ->
    exists w',
      for_each cols (encode_column X true) w
      = (rbind (fit_loop (label_encoders (self w)) cols df)
           (fun _ => Ok tt), w') /\
      files w' = files w /\
      random_state (self w') = random_state (self w) /\
      model (self w') = model (self w) /\
      scaler (self w') = scaler (self w) /\
      feature_columns (self w') = feature_columns (self w) /\
      forall acc,
        fit_loop (label_encoders (self w)) cols df = Ok acc ->
        frames w' !! X = Some (snd acc) /\ label_encoders (self w') = fst acc.
Proof.
  induction cols as [|col cols IH]; intros w df Hdf.
  - exists w. cbn [for_each fit_loop rbind ret].
    split; [reflexivity|]. do 5 (split; [reflexivity|]).
    intros acc' [= <-]. split; [exact Hdf | reflexivity].
  - cbn [for_each fit_loop]. unfold bind at 1.
    unfold encode_column, fit_step.
    unfold df_astype_str, bind at 1 2, df_read at 1. rewrite Hdf.
    cbn [of_option].
    destruct (getcol df col) as [[xs|cells]|];
      try (exists w; cbn; repeat split; discriminate).
    unfold ret, bind at 1, lift.
    destruct (le_transform (le_fit (astype_str cells)) (astype_str cells))
      as [codes|e]; [|exists w; cbn; repeat split; discriminate].
    unfold bind at 1, df_setitem, bind at 1, df_read. rewrite Hdf.
    cbn [of_option rbind].
    unfold set_label_encoder, bind, get_self, put_self.
    set (w1 := set_self _ _).
    destruct (IH w1 (setcol df col (NumCol codes)))
      as (w' & Hrun & Hf & Hr & Hm & Hs & Hfc & Hacc).
    { cbn [w1 frames set_self set_frames].
      apply list_lookup_insert_eq. eapply lookup_lt_Some, Hdf. }
    exists w'. cbn [fst snd]. repeat split; try assumption.
    + apply (Hacc acc H).
    + apply (Hacc acc H).
Qed.

Lemma preprocess_data_true (w : world) (X : loc) (df : DataFrame) :
  frames w !! X = Some df ->
  exists w',
    preprocess_data py_float X true w = (fitted py_float (self w) df, w') /\
    files w' = files w /\
    random_state (self w') = random_state (self w) /\
    model (self w') = model (self w) /\
    forall acc,
      fit_loop (label_encoders (self w)) (select_dtypes_object df) df = Ok acc ->
      label_encoders (self w') = fst acc /\
      feature_columns (self w') = Some (columns (fillna_mean (snd acc))) /\
      scaler (self w')
      = match scaler_fit py_float (fillna_mean (snd acc)) with
        | Ok ps => Fitted ps
        | Raise _ =>
            fit_started (scaler (self w)) (columns (fillna_mean (snd acc)))
        end.
Proof.
  intros Hdf. unfold preprocess_data, fitted.
  unfold df_copy, bind at 1 2, df_read at 1. rewrite Hdf. cbn [of_option].
  unfold df_new at 1.
  set (w0 := set_frames w (frames w ++ [df])).
  assert (H0 : frames w0 !! length (frames w) = Some df).
  { cbn [w0 frames set_frames]. apply list_lookup_middle. reflexivity. }
  unfold bind at 1, df_read at 1. rewrite H0. cbn [of_option].
  destruct (for_each_encode_true (length (frames w))
              (select_dtypes_object df) w0 df H0)
    as (w1 & Hrun & Hf1 & Hr1 & Hm1 & Hs1 & Hfc1 & Hacc1).
  unfold bind at 1. rewrite Hrun.
  change (label_encoders (self w0)) with (label_encoders (self w)) in *.
  destruct (fit_loop (label_encoders (self w)) (select_dtypes_object df) df)
    as [acc|e]; cbn [rbind].
  - destruct (Hacc1 acc eq_refl) as [Hx1 Hles1].
    unfold bind at 1, df_read at 1. rewrite Hx1. cbn [of_option].
    unfold bind at 1, df_new at 1.
    set (w2 := set_frames w1 (frames w1 ++ [fillna_mean (snd acc)])).
    assert (H2 : frames w2 !! length (frames w1)
                 = Some (fillna_mean (snd acc))).
    { cbn [w2 frames set_frames]. apply list_lookup_middle. reflexivity. }
    unfold bind at 1, df_read at 1. rewrite H2. cbn [of_option].
    unfold set_feature_columns, set_scaler, bind, get_self, put_self, lift,
      ret, fit_scaled, scaled.
    cbn [fst snd self set_self].
    destruct (scaler_fit py_float (fillna_mean (snd acc))) as [ps|e] eqn:Hfit;
      cbn [rbind self set_self].
    + destruct (scaler_transform py_float (Fitted ps) (fillna_mean (snd acc)));
        cbn [rbind]; eexists; (split; [reflexivity|]);
        cbn [files self set_self set_frames model random_state label_encoders
               feature_columns scaler];
        (split; [exact Hf1|]); (split; [exact Hr1|]); (split; [exact Hm1|]);
        intros acc' [= <-]; rewrite Hfit; repeat split; exact Hles1.
    + eexists; (split; [reflexivity|]);
        cbn [files self set_self set_frames model random_state label_encoders
               feature_columns scaler];
        (split; [exact Hf1|]); (split; [exact Hr1|]); (split; [exact Hm1|]);
        intros acc' [= <-]; rewrite Hfit;
        (split; [exact Hles1|]); (split; [reflexivity|]);
        change (scaler (self w2)) with (scaler (self w1));
        rewrite Hs1; reflexivity.
  - exists w1. split; [reflexivity|].
    split; [exact Hf1|]. split; [exact Hr1|]. split; [exact Hm1|].
    discriminate.
Qed.

(** *** The two loops *)

Lemma astype_str_length (cells : list (option string)) :
  length (astype_str cells) = length cells.
Proof. unfold astype_str. apply List.length_map. Qed.

Lemma fit_step_obj les (df : DataFrame) (col : string)
    (cells : list (option string)) :
  getcol df col = Some (ObjCol cells) ->
  exists codes,
    le_transform (le_fit (astype_str cells)) (astype_str cells) = Ok codes /\
    length codes = length cells /\
    fit_step les df col
    = Ok (<[col := le_fit (astype_str cells)]> les,
          setcol df col (NumCol codes)).
Proof.
  intros Hget. unfold fit_step. rewrite Hget.
  destruct (le_fit_transform (astype_str cells)) as (codes & Hcodes & Hlen).
  exists codes. rewrite Hcodes. cbn [rbind].
  rewrite astype_str_length in Hlen. auto.
Qed.

Lemma fit_step_Ok les (df : DataFrame) (col : string) acc :
  fit_step les df col = Ok acc ->
  exists cells codes,
    getcol df col = Some (ObjCol cells) /\
    le_transform (le_fit (astype_str cells)) (astype_str cells) = Ok codes /\
    length codes = length cells /\
    acc = (<[col := le_fit (astype_str cells)]> les,
           setcol df col (NumCol codes)).
Proof.
  intros Hstep.
  destruct (getcol df col) as [[xs|cells]|] eqn:Hget;
    try (unfold fit_step in Hstep; rewrite Hget in Hstep; discriminate).
  destruct (fit_step_obj les df col cells Hget) as (codes & Hc & Hl & Hs).
  exists cells, codes. rewrite Hs in Hstep. injection Hstep as <-. auto.
Qed.

Lemma fit_loop_Ok_facts (cols : list string) :
  forall les (df : DataFrame) acc,
    fit_loop les cols df = Ok acc ->
    same_shape df (snd acc) /\
    (forall col, In col cols -> is_Some (fst acc !! col)) /\
    (forall c, ~ In c cols -> fst acc !! c = les !! c) /\
    (forall c, ~ In c cols -> getcol (snd acc) c = getcol df c).
Proof.
  induction cols as [|col cols IH]; intros les df acc Hloop;
    cbn [fit_loop] in Hloop.
  - injection Hloop as <-. cbn [fst snd].
    repeat split; [apply same_shape_refl | intros ? []].
  - destruct (fit_step les df col) as [acc1|] eqn:Hstep;
      cbn [rbind] in Hloop; [|discriminate].
    apply fit_step_Ok in Hstep
      as (cells & codes & Hget & Hcodes & Hlen & ->).
    cbn [fst snd] in Hloop.
    destruct (IH _ _ _ Hloop) as (Hshape & Hsome & Hles & Hcol).
    split; [|split; [|split]].
    + eapply same_shape_trans; [|exact Hshape].
      eapply same_shape_setcol; [exact Hget|]. exact Hlen.
    + intros c [<-|Hin]; [|apply Hsome, Hin].
      destruct (in_dec string_dec col cols) as [Hin|Hnin];
        [apply Hsome, Hin|].
      rewrite (Hles col Hnin), lookup_insert_eq. eauto.
    + intros c Hc. rewrite Hles by (intros ?; apply Hc; right; assumption).
      apply lookup_insert_ne. intros ->. apply Hc. left. reflexivity.
    + intros c Hc. rewrite Hcol by (intros ?; apply Hc; right; assumption).
      apply getcol_setcol_ne. intros ->. apply Hc. left. reflexivity.
Qed.

(** With distinct labels the loop with [fit=True] cannot raise. *)
Lemma fit_loop_ok (cols : list string) :
  forall les (df : DataFrame),
    NoDup cols ->
    (forall col, In col cols -> exists cells, getcol df col = Some (ObjCol cells)) ->
    exists acc, fit_loop les cols df = Ok acc.
Proof.
  induction cols as [|col cols IH]; intros les df Hnd Hobj; cbn [fit_loop];
    [eauto|].
  apply NoDup_cons in Hnd as [Hcol Hnd].
  destruct (Hobj col (or_introl eq_refl)) as [cells Hget].
  destruct (fit_step_obj les df col cells Hget) as (codes & _ & _ & ->).
  cbn [rbind fst snd]. apply IH; [exact Hnd|].
  intros c Hc. rewrite getcol_setcol_ne; [apply Hobj; right; exact Hc|].
  intros ->. apply Hcol, list_elem_of_In, Hc.
Qed.

(** The encoders the loop with [fit=True] registers turn the frame it
    started from into the frame it ended with. *)
Lemma fit_encode_agree (cols : list string) :
  forall les (df : DataFrame) acc les',
    NoDup cols ->
    fit_loop les cols df = Ok acc ->
    (forall col, In col cols -> les' !! col = fst acc !! col) ->
    encode_loop les' cols df = Ok (snd acc).
Proof.
  induction cols as [|col cols IH]; intros les df acc les' Hnd Hloop Hles;
    cbn [fit_loop encode_loop] in *.
  - injection Hloop as <-. reflexivity.
  - apply NoDup_cons in Hnd as [Hcol Hnd].
    destruct (fit_step les df col) as [acc1|] eqn:Hstep;
      cbn [rbind] in Hloop; [|discriminate].
    apply fit_step_Ok in Hstep
      as (cells & codes & Hget & Hcodes & Hlen & ->).
    cbn [fst snd] in Hloop.
    destruct (fit_loop_Ok_facts _ _ _ _ Hloop) as (_ & _ & Hkeep & _).
    unfold encode_step.
    rewrite (Hles col (or_introl eq_refl)), Hkeep, lookup_insert_eq, Hget,
      Hcodes by (intros Hin; apply Hcol, list_elem_of_In, Hin).
    cbn [rbind].
    apply (IH _ _ _ _ Hnd Hloop).
    intros c Hc. apply Hles. right. exact Hc.
Qed.

Lemma encode_step_same_shape les (df df' : DataFrame) (col : string) :
  encode_step les df col = Ok df' -> same_shape df df'.
Proof.
  unfold encode_step.
  destruct (les !! col) as [le|]; [|intros [= <-]; apply same_shape_refl].
  destruct (getcol df col) as [[xs|cells]|] eqn:Hget; try discriminate.
  destruct (le_transform le (astype_str cells)) as [codes|] eqn:Hcodes;
    cbn [rbind]; [|discriminate].
  intros [= <-]. eapply same_shape_setcol; [exact Hget|].
  cbn [col_length]. apply le_transform_length in Hcodes.
  rewrite Hcodes. apply astype_str_length.
Qed.

Lemma encode_loop_same_shape les (cols : list string) :
  forall df df' : DataFrame,
    encode_loop les cols df = Ok df' -> same_shape df df'.
Proof.
  induction cols as [|col cols IH]; intros df df' Hloop;
    cbn [encode_loop] in Hloop.
  - injection Hloop as <-. apply same_shape_refl.
  - destruct (encode_step les df col) as [df1|] eqn:Hstep;
      cbn [rbind] in Hloop; [|discriminate].
    eapply same_shape_trans;
      [eapply encode_step_same_shape, Hstep | apply IH, Hloop].
Qed.

(** The loop with [fit=False] raises nothing but [ValueError]. *)
Lemma encode_loop_error les (cols : list string) :
  forall (df : DataFrame) e,
    (forall col, In col cols -> In col (columns df)) ->
    encode_loop les cols df = Raise e -> e = ValueError.
Proof.
  induction cols as [|col cols IH]; intros df e Hcols Hloop;
    cbn [encode_loop] in Hloop; [discriminate|].
  destruct (encode_step les df col) as [df1|e1] eqn:Hstep;
    cbn [rbind] in Hloop.
  - apply (IH df1 e); [|exact Hloop].
    intros c Hc.
    rewrite (same_shape_columns _ _ (encode_step_same_shape _ _ _ _ Hstep)).
    apply Hcols. right. exact Hc.
  - injection Hloop as <-. unfold encode_step in Hstep.
    destruct (les !! col) as [le|]; [|discriminate].
    destruct (In_getcol df col (Hcols col (or_introl eq_refl))) as [c Hc].
    rewrite Hc in Hstep. destruct c as [xs|cells]; [congruence|].
    destruct (le_transform le (astype_str cells)) as [codes|e'] eqn:Hcodes;
      cbn [rbind] in Hstep; [discriminate|].
    injection Hstep as <-. eapply le_transform_error, Hcodes.
Qed.

(** When the loop with [fit=False] goes through, every mapped column was
    made of labels its encoder knows. *)
Lemma encode_loop_Ok_transform les (cols : list string) :
  forall (df df' : DataFrame) col le cells,
    NoDup cols ->
    encode_loop les cols df = Ok df' ->
    In col cols -> les !! col = Some le ->
    getcol df col = Some (ObjCol cells) ->
    exists codes, le_transform le (astype_str cells) = Ok codes.
Proof.
  induction cols as [|c cols IH]; intros df df' col le cells Hnd Hloop Hin
    Hle Hget; [destruct Hin|].
  cbn [encode_loop] in Hloop. apply NoDup_cons in Hnd as [Hc Hnd].
  destruct (encode_step les df c) as [df1|] eqn:Hstep;
    cbn [rbind] in Hloop; [|discriminate].
  destruct Hin as [->|Hin].
  - unfold encode_step in Hstep. rewrite Hle, Hget in Hstep.
    destruct (le_transform le (astype_str cells)) as [codes|];
      [eauto | discriminate].
  - apply (IH df1 df' col le cells Hnd Hloop Hin Hle).
    rewrite (encode_step_getcol _ _ _ _ _ Hstep); [exact Hget|].
    left. intros ->. apply Hc, list_elem_of_In, Hin.
Qed.

(** *** The scaler *)

Lemma check_array_error (df : DataFrame) (e : exn) :
  check_array py_float df = Raise e -> e = ValueError.
Proof.
  unfold check_array.
  destruct (rmap _ df) as [cols|e'] eqn:Hcols; cbn [rbind].
  - destruct (Nat.eqb (length cols) 0); [congruence|].
    destruct (Nat.eqb (n_rows df) 0); [congruence|].
    destruct (existsb _ cols); congruence.
  - intros [= ->]. apply rmap_Raise in Hcols as ([n c] & _ & Hc).
    cbn [snd] in Hc. destruct c as [xs|cells]; cbn in Hc; [discriminate|].
    apply rmap_Raise in Hc as (cell & _ & Hcell).
    destruct cell as [s0|]; cbn in Hcell; [|discriminate].
    destruct (py_float s0); cbn in Hcell; congruence.
Qed.

Lemma check_array_Ok (df : DataFrame) (cols : list (list float)) :
  check_array py_float df = Ok cols ->
  length cols = length df /\ n_rows df <> 0.
Proof.
  unfold check_array.
  destruct (rmap _ df) as [cols'|] eqn:Hcols; cbn [rbind]; [|discriminate].
  destruct (Nat.eqb (length cols') 0); [discriminate|].
  destruct (Nat.eqb_spec (n_rows df) 0); [discriminate|].
  destruct (existsb _ cols'); [discriminate|].
  intros [= <-]. split; [eapply rmap_Ok_length, Hcols | assumption].
Qed.

(** A table without rows is refused. *)
Lemma check_array_no_rows (df : DataFrame) :
  n_rows df = 0 -> check_array py_float df = Raise ValueError.
Proof.
  intros Hrows. destruct (check_array py_float df) as [cols|e] eqn:E.
  - apply check_array_Ok in E as [_ Hne]. contradiction.
  - apply check_array_error in E as ->. reflexivity.
Qed.

Lemma columns_length (df : DataFrame) : length (columns df) = length df.
Proof. unfold columns. apply List.length_map. Qed.

Lemma scaler_fit_Ok (df : DataFrame) (ps : scaler_params) :
  scaler_fit py_float df = Ok ps ->
  feature_names_in_ ps = columns df /\
  length (mean_ ps) = length df /\
  length (scale_ ps) = length df.
Proof.
  unfold scaler_fit.
  destruct (check_array py_float df) as [cols|] eqn:E; cbn [rbind];
    [|discriminate].
  intros [= <-]. cbn [feature_names_in_ mean_ scale_].
  apply check_array_Ok in E as [Hlen _].
  rewrite !List.length_map. auto.
Qed.

Lemma rows_of_shape (n : nat) (cols : list (list float)) :
  length (rows_of n cols) = n /\
  Forall (fun row => length row = length cols) (rows_of n cols).
Proof.
  unfold rows_of. split.
  - rewrite List.length_map. apply List.length_seq.
  - apply List.Forall_forall. intros row Hrow.
    apply List.in_map_iff in Hrow as (i & <- & _).
    apply List.length_map.
Qed.

Lemma scaler_transform_shape (ps : scaler_params) (df : DataFrame)
    (Xs : list (list float)) :
  length (mean_ ps) = length df ->
  length (scale_ ps) = length df ->
  scaler_transform py_float (Fitted ps) df = Ok Xs ->
  length Xs = n_rows df /\
  Forall (fun row => length row = length df) Xs.
Proof.
  intros Hm Hs. unfold scaler_transform.
  destruct (negb _); [discriminate|].
  destruct (check_array py_float df) as [cols|] eqn:E; cbn [rbind];
    [|discriminate].
  apply check_array_Ok in E as [Hlen _].
  intros [= <-].
  destruct (rows_of_shape (n_rows df)
              (List.map (fun mc => scale_column (fst mc) (snd mc))
                 (List.combine (List.combine (mean_ ps) (scale_ ps)) cols)))
    as [Hrows Hwidth].
  split; [exact Hrows|].
  eapply List.Forall_impl; [|exact Hwidth].
  intros row ->. rewrite List.length_map, !List.length_combine. lia.
Qed.

(** *** What fitting leaves behind *)

(** X1: encoding with [fit=False] right after a successful
    [fit=True] on the same table (labels distinct) gives the matrix and the
    column list the fitting call returned. *)
Theorem fit_then_transform (w : world) (X X' : loc) (df : DataFrame)
    (r : list (list float) * list string) :
  frames w !! X = Some df ->
  NoDup (columns df) ->
  fst (preprocess_data py_float X true w) = Ok r ->
  frames (snd (preprocess_data py_float X true w)) !! X' = Some df ->
  fst (preprocess_data py_float X' false
         (snd (preprocess_data py_float X true w))) = Ok r.
Proof.
  intros Hdf Hnd.
  destruct (preprocess_data_true w X df Hdf) as (w' & -> & _ & _ & _ & Hacc).
  cbn [fst snd]. intros Hfit Hdf'.
  destruct (preprocess_data_false py_float w' X' df Hdf') as (w'' & -> & _).
  cbn [fst]. unfold fitted in Hfit. unfold encoded.
  destruct (fit_loop (label_encoders (self w)) (select_dtypes_object df) df)
    as [acc|] eqn:Hloop; cbn [rbind] in Hfit; [|discriminate].
  destruct (Hacc acc eq_refl) as (Hles & _ & Hsc).
  rewrite (fit_encode_agree _ _ _ acc (label_encoders (self w'))
             (NoDup_select df Hnd) Hloop)
    by (intros col _; rewrite Hles; reflexivity).
  cbn [rbind]. unfold fit_scaled in Hfit.
  destruct (scaler_fit py_float (fillna_mean (snd acc))) as [ps|];
    cbn [rbind] in Hfit; [|discriminate].
  rewrite Hsc. exact Hfit.
Qed.

(** X2: after a successful call with [fit=True] the wrapper holds the
    table's column list as [feature_columns], a scaler fitted on exactly
    those columns, and a label encoder for every categorical column; the
    encoders of other labels, the classifier and the seed are as before,
    and the column list returned is the table's. *)
Theorem fit_registers_state (w : world) (X : loc) (df : DataFrame)
    (r : list (list float) * list string) :
  frames w !! X = Some df ->
  fst (preprocess_data py_float X true w) = Ok r ->
  let s' := self (snd (preprocess_data py_float X true w)) in
  snd r = columns df /\
  feature_columns s' = Some (columns df) /\
  (exists ps, scaler s' = Fitted ps /\
              feature_names_in_ ps = columns df /\
              length (mean_ ps) = length (columns df) /\
              length (scale_ ps) = length (columns df)) /\
  (forall col, In col (select_dtypes_object df) ->
               is_Some (label_encoders s' !! col)) /\
  (forall col, ~ In col (select_dtypes_object df) ->
               label_encoders s' !! col = label_encoders (self w) !! col) /\
  model s' = model (self w) /\
  random_state s' = random_state (self w).
Proof.
  intros Hdf.
  destruct (preprocess_data_true w X df Hdf) as (w' & -> & _ & Hr & Hm & Hacc).
  cbn [fst snd]. intros Hfit. unfold fitted in Hfit.
  destruct (fit_loop (label_encoders (self w)) (select_dtypes_object df) df)
    as [acc|] eqn:Hloop; cbn [rbind] in Hfit; [|discriminate].
  destruct (Hacc acc eq_refl) as (Hles & Hfc & Hsc).
  destruct (fit_loop_Ok_facts _ _ _ _ Hloop) as (Hshape & Hsome & Hkeep & _).
  assert (Hcols : columns (fillna_mean (snd acc)) = columns df).
  { rewrite (same_shape_columns _ _ (same_shape_fillna_mean (snd acc))).
    apply same_shape_columns, Hshape. }
  unfold fit_scaled in Hfit.
  destruct (scaler_fit py_float (fillna_mean (snd acc))) as [ps|] eqn:Hps;
    cbn [rbind] in Hfit; [|discriminate].
  unfold scaled in Hfit.
  destruct (scaler_transform py_float (Fitted ps) (fillna_mean (snd acc)));
    cbn [rbind] in Hfit; [|discriminate].
  injection Hfit as <-. cbn [snd].
  apply scaler_fit_Ok in Hps as (Hnames & Hmean & Hscale).
  rewrite <- columns_length, Hcols in Hmean, Hscale.
  rewrite Hcols in Hnames, Hfc. rewrite Hles.
  repeat split; try assumption. eauto.
Qed.

(** X3: the matrix a successful call with [fit=True] returns has one row
    per row of the table and one entry per column of the table. *)
Theorem fit_output_shape (w : world) (X : loc) (df : DataFrame)
    (r : list (list float) * list string) :
  frames w !! X = Some df ->
  fst (preprocess_data py_float X true w) = Ok r ->
  length (fst r) = n_rows df /\
  Forall (fun row => length row = length (columns df)) (fst r).
Proof.
  intros Hdf.
  destruct (preprocess_data_true w X df Hdf) as (w' & -> & _).
  cbn [fst]. intros Hfit. unfold fitted in Hfit.
  destruct (fit_loop (label_encoders (self w)) (select_dtypes_object df) df)
    as [acc|] eqn:Hloop; cbn [rbind] in Hfit; [|discriminate].
  destruct (fit_loop_Ok_facts _ _ _ _ Hloop) as (Hshape & _).
  pose proof (same_shape_trans _ _ _ Hshape
                (same_shape_fillna_mean (snd acc))) as Hshape2.
  unfold fit_scaled in Hfit.
  destruct (scaler_fit py_float (fillna_mean (snd acc))) as [ps|] eqn:Hps;
    cbn [rbind] in Hfit; [|discriminate].
  unfold scaled in Hfit.
  destruct (scaler_transform py_float (Fitted ps) (fillna_mean (snd acc)))
    as [Xs|] eqn:HXs; cbn [rbind] in Hfit; [|discriminate].
  injection Hfit as <-. cbn [fst].
  apply scaler_fit_Ok in Hps as (_ & Hmean & Hscale).
  destruct (scaler_transform_shape _ _ _ Hmean Hscale HXs) as [Hrows Hwidth].
  rewrite (same_shape_n_rows _ _ Hshape2) in Hrows.
  rewrite (same_shape_length _ _ Hshape2), <- columns_length in Hwidth.
  split; assumption.
Qed.

(** A scaler whose fit raised transforms nothing. *)
Lemma fit_started_transform (sc : StandardScaler) (names : list string)
    (df : DataFrame) :
  exists e, scaler_transform py_float (fit_started sc names) df = Raise e.
Proof.
  unfold fit_started, scaler_transform.
  destruct (negb (bool_decide (columns df = names))); [eauto|].
  destruct (check_array py_float df) as [cols|e]; cbn [rbind]; [|eauto].
  destruct (n_features_of sc) as [k|]; [|eauto].
  destruct (Nat.eqb (length cols) k); eauto.
Qed.

(** X4: fitting on a table without rows (labels distinct) raises
    [ValueError]; by then [feature_columns] has been set to the table's
    columns, and whatever the scaler held before, its statistics are gone:
    every later transform with it raises.  The caller's table is as it
    was. *)
Theorem fit_on_empty_table (w : world) (X : loc) (df : DataFrame) :
  frames w !! X = Some df ->
  NoDup (columns df) ->
  n_rows df = 0 ->
  fst (preprocess_data py_float X true w) = Raise ValueError /\
  feature_columns (self (snd (preprocess_data py_float X true w)))
  = Some (columns df) /\
  (forall df',
     exists e,
       scaler_transform py_float
         (scaler (self (snd (preprocess_data py_float X true w)))) df'
       = Raise e) /\
  frames (snd (preprocess_data py_float X true w)) !! X = Some df.
Proof.
  intros Hdf Hnd Hrows.
  pose proof (preprocess_data_keeps py_float w X true) as Hkeep.
  rewrite Hdf in Hkeep.
  destruct (preprocess_data_true w X df Hdf) as (w' & Hrun & _ & _ & _ & Hacc).
  rewrite Hrun in *. cbn [fst snd] in *.
  destruct (fit_loop_ok (select_dtypes_object df) (label_encoders (self w)) df
              (NoDup_select df Hnd)) as [acc Hloop].
  { intros col. apply select_getcol, Hnd. }
  destruct (Hacc acc Hloop) as (_ & Hfc & Hsc).
  destruct (fit_loop_Ok_facts _ _ _ _ Hloop) as (Hshape & _).
  pose proof (same_shape_trans _ _ _ Hshape
                (same_shape_fillna_mean (snd acc))) as Hshape2.
  assert (Hcheck : check_array py_float (fillna_mean (snd acc))
                   = Raise ValueError).
  { apply check_array_no_rows.
    rewrite (same_shape_n_rows _ _ Hshape2). exact Hrows. }
  unfold fitted, fit_scaled. rewrite Hloop. cbn [rbind].
  unfold scaler_fit in *. rewrite Hcheck in *. cbn [rbind] in *.
  rewrite Hfc, Hsc, (same_shape_columns _ _ Hshape2).
  split; [reflexivity|]. split; [reflexivity|].
  split; [intros df'; apply fit_started_transform | exact Hkeep].
Qed.

(** X5: with [fit=False], a categorical column that has a label encoder
    and holds a label the encoder did not see when fitted makes the call
    raise [ValueError] (labels distinct); the wrapper and the caller's
    table are as they were. *)
Theorem unseen_label_raises (w : world) (X : loc) (df : DataFrame)
    (col : string) (cells : list (option string)) (le : LabelEncoder)
    (label : string) :
  frames w !! X = Some df ->
  NoDup (columns df) ->
  getcol df col = Some (ObjCol cells) ->
  label_encoders (self w) !! col = Some le ->
  In label (astype_str cells) ->
  ~ In label (le_classes_ le) ->
  fst (preprocess_data py_float X false w) = Raise ValueError /\
  self (snd (preprocess_data py_float X false w)) = self w /\
  frames (snd (preprocess_data py_float X false w)) !! X = Some df.
Proof.
  intros Hdf Hnd Hget Hle Hin Hnew.
  pose proof (preprocess_data_keeps py_float w X false) as Hkeep.
  rewrite Hdf in Hkeep.
  destruct (preprocess_data_false py_float w X df Hdf) as (w' & Hrun & Hs & _).
  rewrite Hrun in *. cbn [fst snd] in *.
  split; [|split; assumption].
  unfold encoded.
  destruct (encode_loop (label_encoders (self w)) (select_dtypes_object df) df)
    as [df1|e] eqn:Hloop; cbn [rbind].
  - exfalso.
    destruct (encode_loop_Ok_transform _ _ _ _ col le cells
                (NoDup_select df Hnd) Hloop (getcol_select _ _ _ Hget) Hle Hget)
      as [codes Hcodes].
    rewrite (le_transform_unseen le _ label Hin Hnew) in Hcodes. discriminate.
  - f_equal. eapply encode_loop_error; [|exact Hloop].
    apply select_In_columns.
Qed.

(** X6: a successful call with [fit=False] returns the table's own column
    list, in the table's order, and a matrix with one row per row of the
    table. *)
Theorem transform_returns_input_columns (w : world) (X : loc)
    (df : DataFrame) (r : list (list float) * list string) :
  frames w !! X = Some df ->
  fst (preprocess_data py_float X false w) = Ok r ->
  snd r = columns df /\ length (fst r) = n_rows df.
Proof.
  intros Hdf.
  destruct (preprocess_data_false py_float w X df Hdf) as (w' & -> & _).
  cbn [fst]. unfold encoded.
  destruct (encode_loop (label_encoders (self w)) (select_dtypes_object df) df)
    as [df1|] eqn:Hloop; cbn [rbind]; [|discriminate].
  pose proof (same_shape_trans _ _ _ (encode_loop_same_shape _ _ _ _ Hloop)
                (same_shape_fillna_mean df1)) as Hshape.
  unfold scaled.
  destruct (scaler (self w)) as [|ps|names n].
  2: unfold scaler_transform.
  3: destruct (fit_started_transform Unfitted names (fillna_mean df1))
       as [e He].
  3: unfold fit_started in He; cbn [n_features_of] in He.
  3: destruct (scaler_transform py_float (FitFailed names n)
                 (fillna_mean df1)) as [Xs|e'] eqn:HXs;
       cbn [rbind]; [|discriminate].
  3: exfalso; revert HXs; unfold scaler_transform;
       destruct (negb _); [discriminate|];
       destruct (check_array py_float (fillna_mean df1)); cbn [rbind];
       [|discriminate];
       destruct n as [k|]; [destruct (Nat.eqb _ k)|]; discriminate.
  1: discriminate.
  destruct (negb _); cbn [rbind]; [discriminate|].
  destruct (check_array py_float (fillna_mean df1)); cbn [rbind];
    [|discriminate].
  intros [= <-]. cbn [fst snd]. split.
  - apply same_shape_columns, Hshape.
  - rewrite (proj1 (rows_of_shape _ _)).
    apply same_shape_n_rows, Hshape.
Qed.

End FitProperties.

(* ===================================================================== *)
(** ** Further properties of the wrapper: [predict], [save_model],
       [load_model] *)
(* ===================================================================== *)

Section WrapperProperties.

Variable py_float : string -> option float.

Lemma predict_run (w : world) (X : loc) (df : DataFrame) :
  frames w !! X = Some df ->
  exists w',
    Model.predict py_float X w
    = (rbind (encoded py_float (self w) df) (classify (self w)), w') /\
    self w' = self w /\ files w' = files w.
Proof.
  intros Hdf.
  destruct (preprocess_data_false py_float w X df Hdf) as (w' & Hrun & Hs & Hf).
  exists w'. unfold Model.predict, bind at 1. rewrite Hrun.
  destruct (encoded py_float (self w) df) as [r|e]; cbn [rbind]; [|auto].
  unfold bind at 1, get_self, classify. rewrite Hs.
  destruct (model (self w)) as [clf|]; [|unfold raise; auto].
  unfold bind, lift, ret.
  destruct (Sklearn.predict clf (fst r)); cbn [rbind]; [|auto].
  destruct (Sklearn.predict_proba clf (fst r)); cbn [rbind]; auto.
Qed.

Lemma predict_dangling (w : world) (X : loc) :
  frames w !! X = None -> Model.predict py_float X w = (Raise KeyError, w).
Proof.
  intros E. unfold Model.predict, bind at 1.
  rewrite preprocess_data_dangling by exact E. reflexivity.
Qed.

Lemma safe_predict (n : nat) (X : loc) :
  safe n (Model.predict py_float X) (fun _ => True).
Proof.
  unfold Model.predict.
  eapply safe_bind; [apply safe_preprocess_data|]. intros r _.
  eapply safe_bind; [apply safe_get_self|]. intros s _.
  destruct (model s) as [clf|]; [|apply safe_raise].
  eapply safe_bind; [apply safe_lift|]. intros ps _.
  eapply safe_bind; [apply safe_lift|]. intros qs _.
  apply safe_ret.
Qed.

(** X7: [predict] only reads: whether it returns or raises, the wrapper
    (encoders, scaler, classifier), the files and every table that existed
    before the call, the caller's included, are as they were. *)
Theorem predict_reads_only (w : world) (X : loc) :
  self (snd (Model.predict py_float X w)) = self w /\
  files (snd (Model.predict py_float X w)) = files w /\
  forall l df, frames w !! l = Some df ->
               frames (snd (Model.predict py_float X w)) !! l = Some df.
Proof.
  split; [|split].
  - destruct (frames w !! X) as [df|] eqn:E.
    + destruct (predict_run w X df E) as (w' & -> & Hs & _). exact Hs.
    + rewrite predict_dangling by exact E. reflexivity.
  - destruct (frames w !! X) as [df|] eqn:E.
    + destruct (predict_run w X df E) as (w' & -> & _ & Hf). exact Hf.
    + rewrite predict_dangling by exact E. reflexivity.
  - intros l df Hl.
    destruct (safe_predict (length (frames w)) X w (Nat.le_refl _))
      as [[_ Hkeep] _].
    rewrite Hkeep; [exact Hl | eapply lookup_lt_Some, Hl].
Qed.

(** X8: on a wrapper whose scaler has not been fitted neither the
    encoding with [fit=False] nor [predict] ever returns; when no
    categorical column of the table has a label encoder, as on a fresh
    wrapper, what is raised is [NotFittedError]. *)
Theorem not_fitted_raises (w : world) (X : loc) :
  scaler (self w) = Unfitted ->
  (forall r, fst (preprocess_data py_float X false w) <> Ok r) /\
  (forall r, fst (Model.predict py_float X w) <> Ok r) /\
  (forall df,
     frames w !! X = Some df ->
     Forall (fun c => label_encoders (self w) !! c = None)
       (select_dtypes_object df) ->
     fst (preprocess_data py_float X false w) = Raise NotFittedError /\
     fst (Model.predict py_float X w) = Raise NotFittedError).
Proof.
  intros Hsc.
  destruct (frames w !! X) as [df|] eqn:E.
  - destruct (preprocess_data_false py_float w X df E) as (w1 & -> & _).
    destruct (predict_run w X df E) as (w2 & -> & _).
    cbn [fst]. unfold encoded.
    assert (Hnone : forall df1, scaled py_float (scaler (self w)) df1
                                = Raise NotFittedError)
      by (intros df1; rewrite Hsc; reflexivity).
    split; [|split].
    + intros r.
      destruct (encode_loop _ _ df); cbn [rbind]; [rewrite Hnone|]; discriminate.
    + intros r.
      destruct (encode_loop _ _ df); cbn [rbind]; [rewrite Hnone|]; discriminate.
    + intros df' [= <-] Hall. rewrite encode_loop_unmapped by exact Hall.
      cbn [rbind]. rewrite Hnone. split; reflexivity.
  - rewrite preprocess_data_dangling, predict_dangling by exact E.
    cbn [fst]. repeat split; discriminate.
Qed.

(** X9: [predict] returns only on a wrapper that holds a classifier; when
    [self.model] is [None] and the encoding goes through, it raises
    [AttributeError]. *)
Theorem predict_requires_model (w : world) (X : loc) :
  model (self w) = None ->
  (forall r, fst (Model.predict py_float X w) <> Ok r) /\
  (forall df enc,
     frames w !! X = Some df ->
     encoded py_float (self w) df = Ok enc ->
     fst (Model.predict py_float X w) = Raise AttributeError).
Proof.
  intros Hm.
  assert (Hcl : forall enc, classify (self w) enc = Raise AttributeError)
    by (intros enc; unfold classify; rewrite Hm; reflexivity).
  split.
  - intros r. destruct (frames w !! X) as [df|] eqn:E.
    + destruct (predict_run w X df E) as (w' & -> & _). cbn [fst].
      destruct (encoded py_float (self w) df); cbn [rbind];
        [rewrite Hcl|]; discriminate.
    + rewrite predict_dangling by exact E. discriminate.
  - intros df enc Hdf Henc.
    destruct (predict_run w X df Hdf) as (w' & -> & _). cbn [fst].
    rewrite Henc. cbn [rbind]. apply Hcl.
Qed.

End WrapperProperties.

(* ===================================================================== *)
(** ** Further properties: the imputation *)
(* ===================================================================== *)

Section FillProperties.

Lemma SFeqb_self (s : spec_float) : SFeqb s s = false -> s = S754_nan.
Proof.
  unfold SFeqb. destruct s as [sg|sg| |sg m e]; cbn [SFcompare];
    try discriminate; try reflexivity.
  - destruct sg; discriminate.
  - change (Pos.compare_cont Eq m m) with (Pos.compare m m).
    rewrite Z.compare_refl, Pos.compare_refl. destruct sg; discriminate.
Qed.

(** binary64 has one NaN here: a missing value is [nan]. *)
Lemma is_missing_nan (x : float) : F.is_missing x = true -> x = nan.
Proof.
  unfold F.is_missing, PrimFloat.is_nan. rewrite FloatAxioms.eqb_spec.
  intros H. apply negb_true_iff, SFeqb_self in H.
  rewrite <- (SF2Prim_Prim2SF x), H. reflexivity.
Qed.

Lemma fill_present (v : float) (xs : list float) (i : nat) (x : float) :
  xs !! i = Some x -> F.is_missing x = false -> fill v xs !! i = Some x.
Proof.
  intros Hx Hm. unfold fill.
  change (List.map ?f xs) with (f <$> xs).
  rewrite list_lookup_fmap, Hx. cbn. rewrite Hm. reflexivity.
Qed.

Lemma present_all_missing (xs : list float) :
  Forall (fun x => F.is_missing x = true) xs -> F.present xs = [].
Proof.
  unfold F.present. induction 1 as [|x xs Hx _ IH]; cbn [List.filter];
    [reflexivity|].
  rewrite Hx. exact IH.
Qed.

Lemma fill_all_missing (xs : list float) :
  Forall (fun x => F.is_missing x = true) xs -> fill (F.nanmean xs) xs = xs.
Proof.
  intros Hall.
  assert (Hmean : F.nanmean xs = nan).
  { unfold F.nanmean, F.nansum. rewrite (present_all_missing xs Hall).
    vm_compute. reflexivity. }
  rewrite Hmean. clear Hmean. unfold fill.
  induction Hall as [|x xs Hx _ IH]; cbn [List.map]; [reflexivity|].
  rewrite Hx, IH, (is_missing_nan x Hx). reflexivity.
Qed.

(** X11: the imputation keeps the labels, their order and the length of
    every column, leaves columns of object dtype alone and changes no value
    that is present; a numeric column in which every value is missing is
    left as it is, still all missing. *)
Theorem imputation_touches_missing_only (df : DataFrame) :
  columns (fillna_mean df) = columns df /\
  (forall name cells,
     getcol df name = Some (ObjCol cells) ->
     getcol (fillna_mean df) name = Some (ObjCol cells)) /\
  (forall name xs,
     getcol df name = Some (NumCol xs) ->
     exists ys,
       getcol (fillna_mean df) name = Some (NumCol ys) /\
       length ys = length xs /\
       (forall i x, xs !! i = Some x -> F.is_missing x = false ->
                    ys !! i = Some x) /\
       (Forall (fun x => F.is_missing x = true) xs -> ys = xs)).
Proof.
  split; [apply same_shape_columns, same_shape_fillna_mean|].
  split.
  - intros name cells Hget. rewrite getcol_fillna_mean, Hget. reflexivity.
  - intros name xs Hget. exists (fill (F.nanmean xs) xs).
    rewrite getcol_fillna_mean, Hget. cbn [option_map fillna_col].
    split; [reflexivity|]. split; [apply fill_length|]. split.
    + intros i x. apply fill_present.
    + apply fill_all_missing.
Qed.

End FillProperties.

(* ===================================================================== *)
(** ** Further properties of the endpoint and of the form *)
(* ===================================================================== *)

Section EndpointProperties.

Import Sklearn Api.

Variable round4 : float -> float.

(** X12: a classifier fitted on a number of features other than thirteen
    refuses every request, and any classifier refuses a request with a
    field that is infinite or too large for float32: the handler answers
    400, never a response.  The error is [OverflowError] when an int of the
    request is beyond the float64 range, and the classifier's [ValueError]
    otherwise. *)
Theorem request_refused_by_validation (clf : DecisionTreeClassifier)
    (claim : ClaimData) :
  n_features_in_ clf <> 13 \/
  existsb F.too_large32 (feature_row claim) = true ->
  predict_fraud round4 (Some clf) claim
  = HTTPException 400
      (PredictionError
         (if forallb F.int_converts (int_fields claim) then ValueError
          else OverflowError)).
Proof.
  intros H. unfold predict_fraud, predict_body, convert_ints.
  destruct (forallb F.int_converts (int_fields claim)); cbn [rbind];
    [|reflexivity].
  unfold predict, features, check_X.
  cbn [rmap]. unfold check_row.
  change (length (feature_row claim)) with 13.
  destruct (existsb F.too_large32 (feature_row claim)); [reflexivity|].
  destruct (Nat.eqb_spec 13 (n_features_in_ clf)) as [E|_]; cbn [negb];
    [|reflexivity].
  destruct H as [H|H]; [congruence | discriminate].
Qed.

Lemma argmax_single (v : list float) : length v = 1 -> argmax v = 0.
Proof. destruct v as [|x [|y v]]; cbn; congruence. Qed.

(** X13: a tree that was fitted on one class only cannot serve: it
    predicts, but its probability row has a single entry, the handler's
    [[0][1]] raises [IndexError], and every request the classifier's
    validation lets through is answered 400. *)
Theorem single_class_model_refused (clf : DecisionTreeClassifier)
    (claim : ClaimData) :
  n_features_in_ clf = 13 ->
  length (classes_ clf) = 1 ->
  leaves_have 1 (tree_ clf) = true ->
  convert_ints claim = Ok tt ->
  existsb F.too_large32 (feature_row claim) = false ->
  predict_fraud round4 (Some clf) claim
  = HTTPException 400 (PredictionError IndexError).
Proof.
  intros Hn Hcl Hleaves Hints Hfit.
  pose proof (check_X_features clf claim Hn Hfit) as Hcheck.
  set (x := List.map F.to_float32 (feature_row claim)) in *.
  pose proof (apply_tree_length 1 (tree_ clf) x Hleaves) as Hlen.
  unfold predict_fraud, predict_body, predict, predict_proba.
  rewrite Hints, Hcheck. cbn [rbind rmap List.map]. unfold predict_row.
  rewrite (argmax_single _ Hlen).
  destruct (classes_ clf) as [|c [|c' cs]]; try discriminate.
  cbn [List.nth_error of_option rbind].
  unfold proba_of_value.
  destruct (apply_tree (tree_ clf) x) as [|y [|z v]];
    try discriminate.
  reflexivity.
Qed.

(** X14: [/health] and [/predict] agree on the model: [model_loaded] is
    false exactly when every prediction request is answered 500 "Model not
    loaded", and true exactly when none is. *)
Theorem health_check_agrees (model : option DecisionTreeClassifier) :
  (model_loaded (health_check model) = false <->
   forall claim,
     predict_fraud round4 model claim = HTTPException 500 ModelNotLoaded) /\
  (model_loaded (health_check model) = true <->
   forall claim detail,
     predict_fraud round4 model claim <> HTTPException 500 detail).
Proof.
  destruct model as [clf|]; cbn [health_check model_loaded predict_fraud].
  - split.
    + split; [discriminate|].
      intros H. specialize (H Samples.claim_auto).
      destruct (predict_body round4 clf Samples.claim_auto); discriminate.
    + split; [|reflexivity].
      intros _ claim detail.
      destruct (predict_body round4 clf claim); discriminate.
  - split.
    + split; reflexivity.
    + split; [discriminate|].
      intros H. exfalso. exact (H Samples.claim_auto ModelNotLoaded eq_refl).
Qed.

(** *** Requests built by the form *)

Lemma all_from_spec (p : Z -> bool) (n : nat) :
  forall z, App.all_from p z n = true ->
            forall k, (z <= k < z + Z.of_nat n)%Z -> p k = true.
Proof.
  induction n as [|n IH]; intros z Hall k Hk; [lia|].
  cbn [App.all_from] in Hall. apply andb_prop in Hall as [Hz Hrest].
  destruct (Z.eq_dec k z) as [->|Hne]; [exact Hz|].
  apply (IH (z + 1)%Z Hrest). lia.
Qed.

(** Every int a widget of the form can hold converts to a float that
    fits float32. *)
Lemma of_Z_fits (z : Z) :
  (0 <= z <= 1000000)%Z -> F.too_large32 (F.of_Z z) = false.
Proof.
  intros Hz. apply negb_true_iff.
  apply (all_from_spec (fun z => negb (F.too_large32 (F.of_Z z)))
           (Z.to_nat 1000001) 0%Z); [vm_compute; reflexivity | lia].
Qed.

Lemma SF_fits_not_infinite (s : spec_float) (mc : positive) (ec : Z) :
  SFleb (S754_finite false mc ec) (SFabs s) = false ->
  SFeqb (SFabs s) (S754_infinity false) = false.
Proof.
  unfold SFleb, SFeqb.
  destruct s as [sg|sg| |sg m e]; cbn [SFcompare SFabs];
    try discriminate; reflexivity.
Qed.

Lemma fits_not_infinite (x : float) :
  F.too_large32 x = false -> PrimFloat.is_infinity x = false.
Proof.
  unfold F.too_large32, PrimFloat.is_infinity.
  rewrite leb_spec, FloatAxioms.eqb_spec, abs_spec.
  assert (Hc : exists m e, Prim2SF 0x1.ffffffp127 = S754_finite false m e)
    by (vm_compute; eauto).
  destruct Hc as (mc & ec & ->).
  change (Prim2SF infinity) with (S754_infinity false).
  apply SF_fits_not_infinite.
Qed.

Lemma int_converts_small (z : Z) :
  (0 <= z <= 1000000)%Z -> F.int_converts z = true.
Proof.
  intros Hz. unfold F.int_converts.
  rewrite (fits_not_infinite _ (of_Z_fits z Hz)). reflexivity.
Qed.

Lemma SF_between_fits (s : spec_float) (m1 m2 mc : positive) (e1 e2 ec : Z) :
  SFleb (S754_finite false m1 e1) s = true ->
  SFleb s (S754_finite false m2 e2) = true ->
  SFltb (S754_finite false m2 e2) (S754_finite false mc ec) = true ->
  SFleb (S754_finite false mc ec) (SFabs s) = false.
Proof.
  intros Hlo Hhi Hc.
  destruct s as [sg|sg| |sg m e].
  - discriminate Hlo.
  - destruct sg; [discriminate Hlo | discriminate Hhi].
  - discriminate Hlo.
  - destruct sg; [discriminate Hlo|]. cbn [SFabs].
    destruct (SFleb (S754_finite false mc ec) (S754_finite false m e))
      eqn:E; [|reflexivity].
    pose proof (SFleb_trans _ _ _ E Hhi) as Hle.
    rewrite (SFleb_not_ltb _ _ Hle) in Hc. discriminate Hc.
Qed.

Lemma between_fits (x : float) :
  (0.1 <=? x)%float = true -> (x <=? 50)%float = true ->
  F.too_large32 x = false.
Proof.
  unfold F.too_large32.
  assert (Hc : (50 <? 0x1.ffffffp127)%float = true)
    by (vm_compute; reflexivity).
  revert Hc. rewrite !leb_spec, ltb_spec, abs_spec.
  assert (H1 : exists m e, Prim2SF 0.1 = S754_finite false m e)
    by (vm_compute; eauto).
  assert (H2 : exists m e, Prim2SF 50 = S754_finite false m e)
    by (vm_compute; eauto).
  assert (H3 : exists m e, Prim2SF 0x1.ffffffp127 = S754_finite false m e)
    by (vm_compute; eauto).
  destruct H1 as (m1 & e1 & ->), H2 as (m2 & e2 & ->), H3 as (mc & ec & ->).
  intros Hc Hlo Hhi. exact (SF_between_fits _ _ _ _ _ _ _ Hlo Hhi Hc).
Qed.

Lemma flag_fits (b : bool) : F.too_large32 (flag b) = false.
Proof. destruct b; vm_compute; reflexivity. Qed.

Lemma flag_01 (b : bool) : flag b = 0%float \/ flag b = 1%float.
Proof. destruct b; [right | left]; vm_compute; reflexivity. Qed.

Lemma int_of_bool_01 (b : bool) :
  F.of_Z (App.int_of_bool b) = 0%float \/ F.of_Z (App.int_of_bool b) = 1%float.
Proof. destruct b; [right | left]; vm_compute; reflexivity. Qed.

Lemma int_of_bool_fits (b : bool) :
  F.too_large32 (F.of_Z (App.int_of_bool b)) = false.
Proof. destruct b; vm_compute; reflexivity. Qed.

Lemma int_of_bool_converts (b : bool) :
  F.int_converts (App.int_of_bool b) = true.
Proof. destruct b; vm_compute; reflexivity. Qed.

(** X15: every request the form can build, with its widgets within their
    declared bounds and options, is scored by a loaded two-class model over
    the thirteen features: the handler returns a response, never a 400.
    The police-report, claim-kind and claim-type entries it sends are each
    0 or 1. *)
Theorem form_requests_are_scored (f : App.Form)
    (clf : DecisionTreeClassifier) :
  App.widgets_ok f ->
  binary_on 13 clf = true ->
  (exists r, predict_fraud round4 (Some clf) (App.payload f) = Return r) /\
  Forall (fun x => x = 0%float \/ x = 1%float)
    (drop 6 (feature_row (App.payload f))).
Proof.
  intros (Hamount & Hage & _ & Hclaimant & Hlo & Hhi & Hpremium & Hwit & _)
    Hwf.
  split.
  - apply predict_fraud_returns; [exact Hwf| |].
    + unfold convert_ints, int_fields, App.payload.
      cbn [forallb Api.claim_age Api.claimant_age Api.witnesses
             Api.police_report Api.injury_claim Api.property_claim
             Api.vehicle_claim].
      rewrite !int_converts_small by lia.
      rewrite !int_of_bool_converts. reflexivity.
    + unfold feature_row, App.payload.
      cbn [existsb Api.claim_amount Api.claim_age Api.claimant_age
             Api.policy_duration Api.monthly_premium Api.witnesses
             Api.police_report Api.injury_claim Api.property_claim
             Api.vehicle_claim Api.claim_type].
      rewrite !of_Z_fits by lia.
      rewrite (between_fits _ Hlo Hhi), !int_of_bool_fits, !flag_fits.
      reflexivity.
  - unfold feature_row, App.payload.
    cbn [drop Api.police_report Api.injury_claim Api.property_claim
           Api.vehicle_claim Api.claim_type].
    repeat (constructor; [first [apply int_of_bool_01 | apply flag_01]|]).
    constructor.
Qed.

End EndpointProperties.

(* ===================================================================== *)
(** ** The further properties on the sample data *)
(* ===================================================================== *)

Lemma NoDup_raw_table : NoDup (columns raw_table).
Proof. apply (bool_decide_unpack _). vm_compute. exact I. Qed.

Lemma fit_then_transform_witness :
  fst (preprocess_data float_of_digits 0 false
         (snd (preprocess_data float_of_digits 0 true
                 (world_of (init 42) [raw_table]))))
  = fst (preprocess_data float_of_digits 0 true
           (world_of (init 42) [raw_table])).
Proof.
  destruct (fst (preprocess_data float_of_digits 0 true
                   (world_of (init 42) [raw_table]))) as [r|e] eqn:E.
  - apply (fit_then_transform float_of_digits
             (world_of (init 42) [raw_table]) 0 0 raw_table r).
    + reflexivity.
    + exact NoDup_raw_table.
    + exact E.
    + vm_compute. reflexivity.
  - vm_compute in E. discriminate E.
Defined.

Lemma fit_registers_state_witness :
  feature_columns (self (fitted_on raw_table [])) = Some (columns raw_table).
Proof.
  destruct (fst (preprocess_data float_of_digits 0 true
                   (world_of (init 42) [raw_table]))) as [r|e] eqn:E.
  - exact (proj1 (proj2 (fit_registers_state float_of_digits
                           (world_of (init 42) [raw_table]) 0 raw_table r
                           eq_refl E))).
  - vm_compute in E. discriminate E.
Defined.

Lemma fit_output_shape_witness :
  exists r,
    fst (preprocess_data float_of_digits 0 true
           (world_of (init 42) [raw_table])) = Ok r /\
    length (fst r) = 2 /\
    Forall (fun row => length row = 11) (fst r).
Proof.
  destruct (fst (preprocess_data float_of_digits 0 true
                   (world_of (init 42) [raw_table]))) as [r|e] eqn:E.
  - exists r. split; [reflexivity|].
    exact (fit_output_shape float_of_digits
             (world_of (init 42) [raw_table]) 0 raw_table r eq_refl E).
  - vm_compute in E. discriminate E.
Defined.

Lemma fit_on_empty_table_witness :
  fst (preprocess_data float_of_digits 0 true
         (world_of trained [empty_table])) = Raise ValueError /\
  feature_columns (self (snd (preprocess_data float_of_digits 0 true
                                (world_of trained [empty_table]))))
  = Some ["x"; "t"] /\
  (forall df',
     exists e,
       scaler_transform float_of_digits
         (scaler (self (snd (preprocess_data float_of_digits 0 true
                               (world_of trained [empty_table]))))) df'
       = Raise e) /\
  frames (snd (preprocess_data float_of_digits 0 true
                 (world_of trained [empty_table]))) !! 0 = Some empty_table.
Proof.
  apply (fit_on_empty_table float_of_digits (world_of trained [empty_table])
           0 empty_table).
  - reflexivity.
  - apply (bool_decide_unpack _). vm_compute. exact I.
  - reflexivity.
Defined.

Lemma unseen_label_raises_witness :
  fst (preprocess_data float_of_digits 1 false (fitted_on train_t [test_t]))
  = Raise ValueError.
Proof.
  apply (unseen_label_raises float_of_digits (fitted_on train_t [test_t]) 1
           test_t "t" [Some "a"; Some "c"] {| le_classes_ := ["a"; "b"] |} "c").
  - vm_compute. reflexivity.
  - apply NoDup_singleton.
  - reflexivity.
  - vm_compute. reflexivity.
  - cbn. auto.
  - cbn. intros [H|[H|[]]]; discriminate H.
Defined.

Lemma transform_returns_input_columns_witness :
  exists r,
    fst (preprocess_data float_of_digits 1 false (fitted_on train_x [test_x]))
    = Ok r /\
    snd r = ["x"] /\ length (fst r) = 3.
Proof.
  destruct (fst (preprocess_data float_of_digits 1 false
                   (fitted_on train_x [test_x]))) as [r|e] eqn:E.
  - exists r. split; [reflexivity|].
    apply (transform_returns_input_columns float_of_digits
             (fitted_on train_x [test_x]) 1 test_x r); [|exact E].
    vm_compute. reflexivity.
  - vm_compute in E. discriminate E.
Defined.

Lemma not_fitted_raises_witness :
  fst (Model.predict float_of_digits 0 (world_of (init 42) [train_x]))
  = Raise NotFittedError.
Proof.
  apply (proj2 (proj2 (not_fitted_raises float_of_digits
                         (world_of (init 42) [train_x]) 0 eq_refl))
           train_x eq_refl).
  constructor.
Defined.

Lemma predict_requires_model_witness :
  fst (Model.predict float_of_digits 1 (fitted_on train_x [test_x]))
  = Raise AttributeError.
Proof.
  assert (Hm : model (self (fitted_on train_x [test_x])) = None)
    by (vm_compute; reflexivity).
  apply (proj2 (predict_requires_model float_of_digits
                  (fitted_on train_x [test_x]) 1 Hm)
           test_x ([[8]; [13]; [18]]%float, ["x"]));
    vm_compute; reflexivity.
Defined.

Lemma request_refused_by_validation_witness :
  Api.predict_fraud (fun x => x) (Some tree11) claim_auto
  = Api.HTTPException 400 (Api.PredictionError ValueError).
Proof.
  rewrite (request_refused_by_validation (fun x => x) tree11 claim_auto).
  - vm_compute. reflexivity.
  - left. vm_compute. discriminate.
Defined.

(** A two-class tree over the thirteen features refuses an amount of
    1e39 with [ValueError] and an age of 2^1100 with [OverflowError]. *)
Example values_beyond_the_float_ranges :
  Api.predict_fraud (fun x => x) (Some stump) claim_too_large
  = Api.HTTPException 400 (Api.PredictionError ValueError) /\
  Api.predict_fraud (fun x => x) (Some stump) claim_huge_age
  = Api.HTTPException 400 (Api.PredictionError OverflowError).
Proof. split; vm_compute; reflexivity. Qed.

Lemma single_class_model_refused_witness :
  Api.predict_fraud (fun x => x) (Some tree_one_class) claim_auto
  = Api.HTTPException 400 (Api.PredictionError IndexError).
Proof.
  apply (single_class_model_refused (fun x => x) tree_one_class claim_auto);
    vm_compute; reflexivity.
Defined.

Lemma form_requests_are_scored_witness :
  (exists r,
     Api.predict_fraud (fun x => x) (Some stump) (App.payload form_default)
     = Api.Return r) /\
  Forall (fun x => x = 0%float \/ x = 1%float)
    (drop 6 (Api.feature_row (App.payload form_default))).
Proof.
  apply (form_requests_are_scored (fun x => x) form_default stump).
  - unfold App.widgets_ok. cbn.
    repeat split; try lia; try (vm_compute; reflexivity); auto.
  - vm_compute. reflexivity.
Defined.
